(** * openfga-demo: authorization checks and object discovery

    A shallow embedding of [src/src/controller.rs] (the permission check,
    the four resource handlers, the two listing handlers) and of
    [src/src/auth.rs] (the authentication middleware), of [get_fga_config]
    and the configuration record of [src/src/context.rs], and of the router of
    [src/src/routes.rs].

    The remote OpenFGA service is an oracle [Authority]; every handler runs
    in a small reader/writer monad [M] that reads the oracle and logs each
    RPC it sends, so that "no request is sent" is a statement about the log. *)

From stdpp Require Import base gmap strings list sorting.
From Stdlib Require Import Ascii.

(** ** Rust's [Result] *)

Inductive result (A E : Type) : Type :=
| Ok (a : A)
| Err (e : E).
Arguments Ok {A E} a.
Arguments Err {A E} e.

(** ** String helpers of the Rust standard library *)

(** [s.strip_prefix(p)] *)
Fixpoint strip_prefix (p s : string) : option string :=
  match p, s with
  | EmptyString, _ => Some s
  | String c p', String d s' => if Ascii.eqb c d then strip_prefix p' s' else None
  | String _ _, EmptyString => None
  end.

(** [s.contains(p)] *)
Fixpoint contains (p s : string) : bool :=
  match s with
  | EmptyString => String.prefix p s
  | String _ s' => String.prefix p s || contains p s'
  end.

(** [s.split(c).collect::<Vec<&str>>()]: a piece ends at each [c]; the last
    piece is what follows the last [c] (possibly empty). *)
Fixpoint split_go (c : ascii) (cur : string) (s : string) : list string :=
  match s with
  | EmptyString => [cur]
  | String d s' =>
      if Ascii.eqb d c then cur :: split_go c "" s'
      else split_go c (cur +:+ String d EmptyString) s'
  end.
Definition split (c : ascii) (s : string) : list string := split_go c "" s.

(** ** Configuration ([context.rs]) *)

Module OpenFgaConfig.
Record t := mk {
  store_id : string;
  authorization_model_id : option string;
}.
End OpenFgaConfig.

(** ** The OpenFGA RPC messages (the fields the code sets) *)

Module CheckRequestTupleKey.
Record t := mk { user : string; relation : string; object : string }.
End CheckRequestTupleKey.

Module CheckRequest.
Record t := mk {
  store_id : string;
  tuple_key : option CheckRequestTupleKey.t;
  authorization_model_id : string;
}.
End CheckRequest.

Module ListObjectsRequest.
Record t := mk {
  store_id : string;
  authorization_model_id : string;
  type_ : string;   (* [r#type] *)
  consistency : Z;
  relation : string;
  user : string;
}.
End ListObjectsRequest.

(** The remote authority: [check] answers [allowed] or fails with the text of
    the [tonic::Status]; [list_objects] answers the object ids or fails. *)
Record Authority := {
  fga_check : CheckRequest.t -> result bool string;
  fga_list_objects : ListObjectsRequest.t -> result (list string) string;
}.

(** One RPC sent to the authority. *)
Inductive FgaCall :=
| CallCheck (r : CheckRequest.t)
| CallListObjects (r : ListObjectsRequest.t).

(** ** The request monad: read the authority, log the calls sent *)

Definition M (A : Type) : Type := Authority -> list FgaCall * A.

Global Instance M_ret : MRet M := fun A a _ => ([], a).
Global Instance M_bind : MBind M := fun A B k m au =>
  let '(t1, a) := m au in
  let '(t2, b) := k a au in
  (t1 ++ t2, b).

(** [service_client.check(request).await] *)
Definition rpc_check (r : CheckRequest.t) : M (result bool string) :=
  fun au => ([CallCheck r], fga_check au r).

(** [ctx.fga_client.clone().list_objects(request).await] *)
Definition rpc_list_objects (r : ListObjectsRequest.t)
    : M (result (list string) string) :=
  fun au => ([CallListObjects r], fga_list_objects au r).

(** ** [check_permission] *)

Definition check_permission (cfg : OpenFgaConfig.t)
    (user_id relation object_id : string) : M (result bool string) :=
  let store_id := OpenFgaConfig.store_id cfg in
  if String.eqb store_id "" then mret (Err "OpenFGA store ID not configured")
  else
  match OpenFgaConfig.authorization_model_id cfg with
  | None => mret (Err "OpenFGA authorization model ID not configured")
  | Some authorization_model_id =>
      let tuple_key := CheckRequestTupleKey.mk ("user:" +:+ user_id) relation object_id in
      let check_request := CheckRequest.mk store_id (Some tuple_key) authorization_model_id in
      res ← rpc_check check_request;
      match res with
      | Ok allowed => mret (Ok allowed)
      | Err e =>
          if contains "transport error" e || contains "Connection refused" e
          then mret (Err "OpenFGA server is not available. Please check server status and configuration.")
          else mret (Err ("OpenFGA permission check failed: " +:+ e))
      end
  end.

(** ** Handler responses *)

#[local] Set Warnings "-register-all".

(** A [serde_json::Value] (numbers are the unsigned counts the code emits). *)
Inductive Value :=
| VNull
| VBool (b : bool)
| VNumber (n : N)
| VString (s : string)
| VArray (l : list Value)
| VObject (kvs : list (string * Value)).

(** [StatusCode] *)
Definition StatusCode := N.
Definition OK : StatusCode := 200%N.
Definition CREATED : StatusCode := 201%N.
Definition BAD_REQUEST : StatusCode := 400%N.
Definition UNAUTHORIZED : StatusCode := 401%N.
Definition FORBIDDEN : StatusCode := 403%N.
Definition INTERNAL_SERVER_ERROR : StatusCode := 500%N.

(** [Result<(StatusCode, Json<Value>), (StatusCode, Json<Value>)>] *)
Definition HandlerResult := result (StatusCode * Value) (StatusCode * Value).

(** The [Extension<AuthUser>] set by the middleware. *)
Module AuthUser.
Record t := mk { user_id : string }.
End AuthUser.

(** The [Path<ResourceParams>] of the resource routes. *)
Module ResourceParams.
Record t := mk {
  service_name : string;
  service_type : string;
  org_id : string;
  name : string;
}.
End ResourceParams.

(** [format!("{}/{}/{}/{}", service_name, service_type, org_id, name)] *)
Definition resource_key_of (p : ResourceParams.t) : string :=
  ResourceParams.service_name p +:+ "/" +:+ ResourceParams.service_type p +:+ "/" +:+
  ResourceParams.org_id p +:+ "/" +:+ ResourceParams.name p.

(** The error body shared by the four handlers when the check fails. *)
Definition check_failed_body (e : string) : Value :=
  VObject [("error", VString "Failed to check permission"); ("message", VString e)].

Definition denied_body (msg : string) : Value :=
  VObject [("error", VString "Permission denied"); ("message", VString msg)].

(** [create_resource] (the JSON payload is ignored by the code) *)
Definition create_resource (ctx : OpenFgaConfig.t) (auth_user : AuthUser.t)
    (params : ResourceParams.t) : M HandlerResult :=
  let org_key := "organisation:" +:+ ResourceParams.org_id params in
  let user_id := AuthUser.user_id auth_user in
  r ← check_permission ctx user_id "admin" org_key;
  mret match r with
  | Ok allowed =>
      if negb allowed then
        Err (FORBIDDEN, denied_body "You do not have permission to create this resource")
      else
        Ok (CREATED, VObject [("message", VString "Resource created successfully");
                              ("organisation", VString (ResourceParams.org_id params))])
  | Err e => Err (INTERNAL_SERVER_ERROR, check_failed_body e)
  end.

(** [update_resource] *)
Definition update_resource (ctx : OpenFgaConfig.t) (auth_user : AuthUser.t)
    (params : ResourceParams.t) : M HandlerResult :=
  let resource_key := resource_key_of params in
  let user_id := AuthUser.user_id auth_user in
  r ← check_permission ctx user_id "editor" resource_key;
  mret match r with
  | Ok allowed =>
      if negb allowed then
        Err (FORBIDDEN, denied_body "You do not have permission to update this resource")
      else
        Ok (OK, VObject [("message", VString "Resource updated successfully");
                         ("resource_id", VString resource_key)])
  | Err e => Err (INTERNAL_SERVER_ERROR, check_failed_body e)
  end.

(** [get_resource] (the "read" operation) *)
Definition get_resource (ctx : OpenFgaConfig.t) (auth_user : AuthUser.t)
    (params : ResourceParams.t) : M HandlerResult :=
  let resource_key := resource_key_of params in
  let user_id := AuthUser.user_id auth_user in
  r ← check_permission ctx user_id "viewer" resource_key;
  mret match r with
  | Ok allowed =>
      if negb allowed then
        Err (FORBIDDEN, denied_body "You do not have permission to view this resource")
      else
        Ok (OK, VObject [("resource_id", VString resource_key);
                         ("name", VString (ResourceParams.name params));
                         ("service_name", VString (ResourceParams.service_name params));
                         ("service_type", VString (ResourceParams.service_type params));
                         ("org_id", VString (ResourceParams.org_id params))])
  | Err e => Err (INTERNAL_SERVER_ERROR, check_failed_body e)
  end.

(** [delete_resource] *)
Definition delete_resource (ctx : OpenFgaConfig.t) (auth_user : AuthUser.t)
    (params : ResourceParams.t) : M HandlerResult :=
  let resource_key := resource_key_of params in
  let user_id := AuthUser.user_id auth_user in
  r ← check_permission ctx user_id "owner" resource_key;
  mret match r with
  | Ok allowed =>
      if negb allowed then
        Err (FORBIDDEN, denied_body "You do not have permission to delete this resource")
      else
        Ok (OK, VObject [("message", VString "Resource deleted successfully");
                         ("resource_id", VString resource_key)])
  | Err e => Err (INTERNAL_SERVER_ERROR, check_failed_body e)
  end.

(** ** [list_objects] (single-query mode) *)

Module ListQueryParams.
Record t := mk { relation : option string; object_type : option string }.
End ListQueryParams.

(** [Option::unwrap_or_else] / [unwrap_or_default] *)
Definition unwrap_or {A} (o : option A) (d : A) : A :=
  match o with Some a => a | None => d end.

(** [json!(ListResponse { .. })], fields in declaration order *)
Definition list_response_body (objects : list string) (object_type relation : string) : Value :=
  VObject [("objects", VArray (map VString objects));
           ("total_count", VNumber (N.of_nat (length objects)));
           ("object_type", VString object_type);
           ("relation", VString relation)].

Definition list_objects (ctx : OpenFgaConfig.t) (auth_user : AuthUser.t)
    (params : ListQueryParams.t) : M HandlerResult :=
  let user_id := AuthUser.user_id auth_user in
  let relation := unwrap_or (ListQueryParams.relation params) "viewer" in
  let object_type := unwrap_or (ListQueryParams.object_type params) "resource" in
  let request := ListObjectsRequest.mk
    (OpenFgaConfig.store_id ctx)
    (unwrap_or (OpenFgaConfig.authorization_model_id ctx) "")
    object_type 8 relation user_id in
  res ← rpc_list_objects request;
  mret match res with
  | Ok objects => Ok (OK, list_response_body objects object_type relation)
  | Err e => Err (INTERNAL_SERVER_ERROR,
                  VObject [("error", VString "Failed to list objects"); ("message", VString e)])
  end.

(** ** [get_shared_resources] (comprehensive discovery mode) *)

Module SharedService.
Record t := mk { id : string; name : string; shared_via : string; permissions : list string }.
End SharedService.

Module SharedServiceType.
Record t := mk {
  id : string; service_name : string; service_type : string;
  shared_via : string; permissions : list string }.
End SharedServiceType.

Module SharedResource.
Record t := mk {
  id : string; service_name : string; service_type : string; resource_name : string;
  shared_via : string; permissions : list string }.
End SharedResource.

(** The three [Vec]s the fan-out loop pushes into. *)
Record Shared := {
  shared_services : list SharedService.t;
  shared_service_types : list SharedServiceType.t;
  shared_resources : list SharedResource.t;
}.

Definition shared_empty : Shared := {| shared_services := []; shared_service_types := [];
                                        shared_resources := [] |}.

(** The body of [for object_id in objects { match object_type { .. } }]. *)
Definition push_object (object_type relation : string) (acc : Shared) (object_id : string)
    : Shared :=
  if String.eqb object_type "service" then
    match strip_prefix "service:" object_id with
    | Some service_name =>
        {| shared_services := shared_services acc ++
             [SharedService.mk object_id service_name "parent_organization" [relation]];
           shared_service_types := shared_service_types acc;
           shared_resources := shared_resources acc |}
    | None => acc
    end
  else if String.eqb object_type "service_type" then
    match strip_prefix "service_type:" object_id with
    | Some service_type_path =>
        match split "/" service_type_path with
        | [p0; p1] =>
            {| shared_services := shared_services acc;
               shared_service_types := shared_service_types acc ++
                 [SharedServiceType.mk object_id p0 p1 "parent_organization" [relation]];
               shared_resources := shared_resources acc |}
        | _ => acc
        end
    | None => acc
    end
  else if String.eqb object_type "resource" then
    match strip_prefix "resource:" object_id with
    | Some resource_path =>
        match split "/" resource_path with
        | [p0; p1; p2] =>
            {| shared_services := shared_services acc;
               shared_service_types := shared_service_types acc;
               shared_resources := shared_resources acc ++
                 [SharedResource.mk object_id p0 p1 p2 "parent_organization" [relation]] |}
        | _ => acc
        end
    | None => acc
    end
  else acc.

(** The [match ctx.fga_client.clone().list_objects(request).await] of one
    (object type, relation) query; an [Err] is only logged. *)
Definition handle_list_response (object_type relation : string) (acc : Shared)
    (res : result (list string) string) : Shared :=
  match res with
  | Ok objects => fold_left (push_object object_type relation) objects acc
  | Err _ => acc
  end.

Definition object_types : list string := ["service"; "service_type"; "resource"].
Definition relations : list string := ["viewer"; "editor"; "admin"].

Definition shared_list_request (ctx : OpenFgaConfig.t) (user_id object_type relation : string)
    : ListObjectsRequest.t :=
  ListObjectsRequest.mk
    (OpenFgaConfig.store_id ctx)
    (unwrap_or (OpenFgaConfig.authorization_model_id ctx) "")
    object_type 8 relation user_id.

(** [for relation in &relations { .. }] *)
Fixpoint for_relations (ctx : OpenFgaConfig.t) (user_id object_type : string)
    (rels : list string) (acc : Shared) : M Shared :=
  match rels with
  | [] => mret acc
  | relation :: rels' =>
      res ← rpc_list_objects (shared_list_request ctx user_id object_type relation);
      for_relations ctx user_id object_type rels' (handle_list_response object_type relation acc res)
  end.

(** [for object_type in object_types { .. }] *)
Fixpoint for_object_types (ctx : OpenFgaConfig.t) (user_id : string)
    (tys : list string) (acc : Shared) : M Shared :=
  match tys with
  | [] => mret acc
  | object_type :: tys' =>
      acc' ← for_relations ctx user_id object_type relations acc;
      for_object_types ctx user_id tys' acc'
  end.

(** *** Deduplicate and merge permissions *)

(** [Vec::dedup]: drop consecutive repeated elements. *)
Fixpoint dedup (l : list string) : list string :=
  match l with
  | [] => []
  | x :: l' =>
      match l' with
      | y :: _ => if String.eqb x y then dedup l' else x :: dedup l'
      | [] => [x]
      end
  end.

(** [Vec::sort] on [String]s: byte-wise lexicographic order. Any sorting
    algorithm gives the same list for this total order. *)
Definition sort (l : list string) : list string := merge_sort String.le l.

(** The three record types share the shape the merge uses: a key [id] and a
    [permissions] vector that can be replaced. *)
Class HasPermissions (R : Type) := {
  rec_id : R -> string;
  rec_permissions : R -> list string;
  rec_set_permissions : R -> list string -> R;
}.

#[export] Instance SharedService_perms : HasPermissions SharedService.t := {
  rec_id := SharedService.id;
  rec_permissions := SharedService.permissions;
  rec_set_permissions r p :=
    SharedService.mk (SharedService.id r) (SharedService.name r) (SharedService.shared_via r) p;
}.

#[export] Instance SharedServiceType_perms : HasPermissions SharedServiceType.t := {
  rec_id := SharedServiceType.id;
  rec_permissions := SharedServiceType.permissions;
  rec_set_permissions r p :=
    SharedServiceType.mk (SharedServiceType.id r) (SharedServiceType.service_name r)
      (SharedServiceType.service_type r) (SharedServiceType.shared_via r) p;
}.

#[export] Instance SharedResource_perms : HasPermissions SharedResource.t := {
  rec_id := SharedResource.id;
  rec_permissions := SharedResource.permissions;
  rec_set_permissions r p :=
    SharedResource.mk (SharedResource.id r) (SharedResource.service_name r)
      (SharedResource.service_type r) (SharedResource.resource_name r)
      (SharedResource.shared_via r) p;
}.

(** [map.entry(r.id.clone()).and_modify(|existing| { existing.permissions
    .extend(r.permissions.clone()); existing.permissions.sort();
    existing.permissions.dedup(); }).or_insert(r)] *)
Definition merge_entry {R} `{HasPermissions R} (m : gmap string R) (r : R) : gmap string R :=
  match m !! rec_id r with
  | Some existing =>
      <[rec_id r := rec_set_permissions existing
                      (dedup (sort (rec_permissions existing ++ rec_permissions r)))]> m
  | None => <[rec_id r := r]> m
  end.

(** [for r in rs { map.entry(..) .. }] starting from [HashMap::new()]. *)
Definition merge_all {R} `{HasPermissions R} (rs : list R) : gmap string R :=
  fold_left merge_entry rs ∅.

(** [SharedResourcesResponse]: each [Vec] is [map.into_values().collect()],
    whose order is the map's unspecified iteration order; the response is
    therefore represented by the three maps themselves. *)
Record SharedResourcesResponse := {
  services : gmap string SharedService.t;
  service_types : gmap string SharedServiceType.t;
  resources : gmap string SharedResource.t;
}.

Definition merge_shared (s : Shared) : SharedResourcesResponse :=
  {| services := merge_all (shared_services s);
     service_types := merge_all (shared_service_types s);
     resources := merge_all (shared_resources s) |}.

(** [get_shared_resources]: always [Ok((StatusCode::OK, ..))]. *)
Definition get_shared_resources (ctx : OpenFgaConfig.t) (auth_user : AuthUser.t)
    : M (result (StatusCode * SharedResourcesResponse) (StatusCode * Value)) :=
  let user_id := AuthUser.user_id auth_user in
  acc ← for_object_types ctx user_id object_types shared_empty;
  mret (Ok (OK, merge_shared acc)).

(** ** [auth_middleware] ([auth.rs]) *)

(** A [HeaderMap]: (lower-cased name, raw value bytes) in insertion order;
    [headers.get(name)] returns the first value. *)
Definition HeaderMap := list (string * string).

Fixpoint header_get (headers : HeaderMap) (name : string) : option string :=
  match headers with
  | [] => None
  | (n, v) :: hs => if String.eqb n name then Some v else header_get hs name
  end.

(** [http::HeaderValue::to_str]: succeeds iff every byte is visible ASCII
    (32..126) or a tab. *)
Definition is_visible_ascii (b : ascii) : bool :=
  let n := nat_of_ascii b in ((32 <=? n) && (n <? 127)) || (n =? 9).

Definition header_to_str (v : string) : result string unit :=
  if forallb is_visible_ascii (String.list_ascii_of_string v) then Ok v else Err tt.

(** [char::is_whitespace] restricted to ASCII (all [to_str] lets through). *)
Definition is_whitespace (c : ascii) : bool :=
  let n := nat_of_ascii c in (n =? 32) || ((9 <=? n) && (n <=? 13)).

Fixpoint trim_start (l : list ascii) : list ascii :=
  match l with
  | [] => []
  | c :: l' => if is_whitespace c then trim_start l' else l
  end.

(** [str::trim] *)
Definition trim (s : string) : string :=
  String.string_of_list_ascii (rev (trim_start (rev (trim_start (String.list_ascii_of_string s))))).

(** [next] is the protected handler, run with the [AuthUser] extension. *)
Definition auth_middleware {A} (headers : HeaderMap) (next : AuthUser.t -> A)
    : result A (StatusCode * Value) :=
  match header_get headers "x-user-id" with
  | Some header_value =>
      match header_to_str header_value with
      | Ok user_id =>
          if String.eqb (trim user_id) "" then
            Err (BAD_REQUEST, VObject [("error", VString "Invalid user ID");
                   ("message", VString "X-User-Id header cannot be empty")])
          else Ok (next (AuthUser.mk user_id))
      | Err _ =>
          Err (BAD_REQUEST, VObject [("error", VString "Invalid header format");
                 ("message", VString "X-User-Id header must be valid UTF-8")])
      end
  | None =>
      Err (UNAUTHORIZED, VObject [("error", VString "Missing authentication");
             ("message", VString "X-User-Id header is required")])
  end.

(** ** The fan-out as a list of query outcomes *)

(** One (object type, relation) query and the authority's answer. *)
Definition Outcome := (string * string * result (list string) string)%type.

(** The nine queries in the order of the nested loops. *)
Definition fanout_pairs : list (string * string) :=
  flat_map (fun ty => map (fun rel => (ty, rel)) relations) object_types.

Definition fanout_outcomes (ctx : OpenFgaConfig.t) (user_id : string) (au : Authority)
    : list Outcome :=
  map (fun '(ty, rel) => (ty, rel, fga_list_objects au (shared_list_request ctx user_id ty rel)))
    fanout_pairs.

(** Pushing the parsed records of a sequence of outcomes. *)
Definition collect_from (acc : Shared) (qs : list Outcome) : Shared :=
  fold_left (fun acc '(ty, rel, res) => handle_list_response ty rel acc res) qs acc.

Definition collect (qs : list Outcome) : Shared := collect_from shared_empty qs.

Definition succeeded (q : Outcome) : bool :=
  match q with (_, _, Ok _) => true | _ => false end.

(** [find] the first record with a given id. *)
Definition first_with_id {R} `{HasPermissions R} (i : string) (rs : list R) : option R :=
  List.find (fun x => String.eqb (rec_id x) i) rs.

(** What the merge promises about a map built from [rs]. *)
Definition merged_ok {R} `{HasPermissions R} (rs : list R) (m : gmap string R) : Prop :=
  (forall i, m !! i = None <-> ~ exists x, x ∈ rs /\ rec_id x = i) /\
  (forall i r, m !! i = Some r ->
     rec_id r = i /\
     NoDup (rec_permissions r) /\
     (forall p, p ∈ rec_permissions r <-> exists x, x ∈ rs /\ rec_id x = i /\ p ∈ rec_permissions x) /\
     (exists x, first_with_id i rs = Some x /\
        forall p, rec_set_permissions r p = rec_set_permissions x p)).

(** ** [get_fga_config] ([context.rs]) *)

(** [env::var(name)]: [Some v] when the variable is set (to valid Unicode),
    [None] otherwise. *)
Definition Env := string -> option string.

Definition get_fga_config (env : Env) : OpenFgaConfig.t :=
  let store_id := match env "OPENFGA_STORE_ID" with
                  | Some v => v
                  | None => ""
                  end in
  let authorization_model_id := match env "OPENFGA_AUTH_MODEL_ID" with
                                | Some id => Some id
                                | None => None
                                end in
  OpenFgaConfig.mk store_id authorization_model_id.

(** ** [create_routes] ([routes.rs]) *)

(** The methods the router registers. *)
Inductive Method := GET | POST | PUT | DELETE.

(** An HTTP response: status and JSON body. *)
Definition Response := (StatusCode * Value)%type.

(** [IntoResponse] of a handler's [Result]: both arms are responses. *)
Definition into_response (r : HandlerResult) : Response :=
  match r with Ok x => x | Err x => x end.

Definition health_check : Response := (OK, VObject [("status", VString "healthy")]).

Definition root : Response := (OK, VObject [("message", VString "Welcome to OpenFGA Demo API")]).

(** Runs a handler and turns its result into a response. *)
Definition run_handler (h : M HandlerResult) (au : Authority) : list FgaCall * Response :=
  let '(t, r) := h au in (t, into_response r).

(** The three paths [create_routes] registers; the resource path binds the
    four [ResourceParams]. *)
Inductive Route :=
| RRoot
| RHealth
| RResource (params : ResourceParams.t).

(** Matching the segments of a request path against "/", "/health" and
    "/api/resource/{service_name}/{service_type}/{org_id}/{name}". *)
Definition match_route (path : list string) : option Route :=
  match path with
  | [] => Some RRoot
  | [s] => if String.eqb s "health" then Some RHealth else None
  | [a; b; service_name; service_type; org_id; name] =>
      if String.eqb a "api" && String.eqb b "resource"
      then Some (RResource (ResourceParams.mk service_name service_type org_id name))
      else None
  | _ => None
  end.

(** The router of [create_routes(ctx)] answering one request. [path] is the
    list of (decoded) path segments, "/" being [[]]. [json_body] is the
    outcome of the [Json<Value>] extractor of the POST and PUT handlers: the
    value, or the extractor's rejection response. The result is [None] for the
    requests no route registers (axum's own 404/405 fallbacks), which are not
    modelled. The authentication middleware is a [route_layer] of the resource
    route only. *)
Definition create_routes (ctx : OpenFgaConfig.t) (au : Authority) (method : Method)
    (path : list string) (headers : HeaderMap) (json_body : result Value Response)
    : option (list FgaCall * Response) :=
  match match_route path, method with
  | Some RRoot, GET => Some ([], root)
  | Some RHealth, GET => Some ([], health_check)
  | Some (RResource params), _ =>
      let handler (auth_user : AuthUser.t) : list FgaCall * Response :=
        match method with
        | POST => match json_body with
                  | Ok _ => run_handler (create_resource ctx auth_user params) au
                  | Err rejection => ([], rejection)
                  end
        | PUT => match json_body with
                 | Ok _ => run_handler (update_resource ctx auth_user params) au
                 | Err rejection => ([], rejection)
                 end
        | GET => run_handler (get_resource ctx auth_user params) au
        | DELETE => run_handler (delete_resource ctx auth_user params) au
        end in
      Some (match auth_middleware headers handler with
            | Ok out => out
            | Err resp => ([], resp)
            end)
  | _, _ => None
  end.

(** The handler the resource route registers for each method. *)
Definition handler_of (method : Method)
    : OpenFgaConfig.t -> AuthUser.t -> ResourceParams.t -> M HandlerResult :=
  match method with
  | POST => create_resource
  | PUT => update_resource
  | GET => get_resource
  | DELETE => delete_resource
  end.

(** The relation and object each method of the resource route checks. *)
Definition route_check_target (method : Method) (p : ResourceParams.t) : string * string :=
  match method with
  | POST => ("admin", "organisation:" +:+ ResourceParams.org_id p)
  | PUT => ("editor", resource_key_of p)
  | GET => ("viewer", resource_key_of p)
  | DELETE => ("owner", resource_key_of p)
  end.

Definition is_check_call (c : FgaCall) : Prop :=
  match c with CallCheck _ => True | CallListObjects _ => False end.

(** ** Auxiliary definitions for the proofs *)

Definition string_lt (a b : string) : Prop := String.le a b /\ a <> b.

(** [existing.permissions.sort(); existing.permissions.dedup()] *)
Definition canon (l : list string) : list string := dedup (sort l).

(** Two records with the same id agree on every field but [permissions]. *)
Definition compatible {R} `{HasPermissions R} (a b : R) : Prop :=
  rec_id a = rec_id b -> forall p, rec_set_permissions a p = rec_set_permissions b p.

Definition shared_app (a b : Shared) : Shared :=
  {| shared_services := shared_services a ++ shared_services b;
     shared_service_types := shared_service_types a ++ shared_service_types b;
     shared_resources := shared_resources a ++ shared_resources b |}.

(** The records one outcome contributes. *)
Definition outcome_records (q : Outcome) : Shared :=
  let '(ty, rel, res) := q in handle_list_response ty rel shared_empty res.

(** ** Records pushed by the loop are determined by their id *)

Definition gen_service (x : SharedService.t) : Prop :=
  strip_prefix "service:" (SharedService.id x) = Some (SharedService.name x) /\
  SharedService.shared_via x = "parent_organization" /\
  exists rel, SharedService.permissions x = [rel].

Definition gen_service_type (x : SharedServiceType.t) : Prop :=
  (exists path, strip_prefix "service_type:" (SharedServiceType.id x) = Some path /\
     split "/" path = [SharedServiceType.service_name x; SharedServiceType.service_type x]) /\
  SharedServiceType.shared_via x = "parent_organization" /\
  exists rel, SharedServiceType.permissions x = [rel].

Definition gen_resource (x : SharedResource.t) : Prop :=
  (exists path, strip_prefix "resource:" (SharedResource.id x) = Some path /\
     split "/" path = [SharedResource.service_name x; SharedResource.service_type x;
                       SharedResource.resource_name x]) /\
  SharedResource.shared_via x = "parent_organization" /\
  exists rel, SharedResource.permissions x = [rel].

Definition shared_gen (s : Shared) : Prop :=
  Forall gen_service (shared_services s) /\
  Forall gen_service_type (shared_service_types s) /\
  Forall gen_resource (shared_resources s).

(** What a resource handler [h] does with the outcome [chk] of its
    permission check: it sends nothing more, answers 403 on a denial, 500 on a
    checker error, and succeeds only on an allowed check. *)
Definition crud_contract (chk : list FgaCall * result bool string)
    (h : list FgaCall * HandlerResult) : Prop :=
  fst h = fst chk /\
  (snd chk = Ok false -> exists body, snd h = Err (FORBIDDEN, body)) /\
  (forall e, snd chk = Err e -> snd h = Err (INTERNAL_SERVER_ERROR, check_failed_body e)) /\
  (snd chk = Ok true -> exists code body, snd h = Ok (code, body)) /\
  (forall code body, snd h = Ok (code, body) -> snd chk = Ok true).

(** The user field of a logged call. *)
Definition call_user (c : FgaCall) : string :=
  match c with
  | CallCheck r => match CheckRequest.tuple_key r with
                   | Some k => CheckRequestTupleKey.user k
                   | None => ""
                   end
  | CallListObjects r => ListObjectsRequest.user r
  end.

(** ** Concrete configurations and authorities *)

Definition cfg_demo : OpenFgaConfig.t := OpenFgaConfig.mk "store1" (Some "model1").
Definition cfg_missing : OpenFgaConfig.t := OpenFgaConfig.mk "" None.

Definition alice : AuthUser.t := AuthUser.mk "alice".

Definition params_demo : ResourceParams.t := ResourceParams.mk "svcA" "typeB" "org1" "res1".

(** Grants every check; answers each list query with a few ids, among them a
    service type with three segments, and fails the ("service_type", "admin")
    query. *)
Definition au_demo : Authority := {|
  fga_check := fun _ => Ok true;
  fga_list_objects := fun r =>
    let ty := ListObjectsRequest.type_ r in
    let rel := ListObjectsRequest.relation r in
    if String.eqb ty "service" then Ok ["service:svcA"]
    else if String.eqb ty "service_type" then
      if String.eqb rel "viewer" then Ok ["service_type:svc/typeA"; "service_type:svc/typeA/extra"]
      else if String.eqb rel "editor" then Ok ["service_type:svc/typeA"; "service_type:svc/typeB"]
      else Err "transport error: connection refused"
    else if String.eqb ty "resource" then
      if String.eqb rel "admin" then Ok ["resource:svc/typeA/res1"; "resource:svc/typeA/org1/res1"]
      else Ok ["resource:svc/typeA/res1"]
    else Ok [];
|}.

(** The authority is unreachable for every call. *)
Definition au_down : Authority := {|
  fga_check := fun _ => Err "transport error";
  fga_list_objects := fun _ => Err "transport error";
|}.

(** A pushed record satisfies the predicate of its vector. *)
Ltac push_one :=
  simpl; split_and!; simpl; try done; apply Forall_app; split; try done;
  constructor; [|constructor]; split_and!; simpl; eauto.

(** * Proofs *)

Example split_ex : split "/" "svc/typeA/extra" = ["svc"; "typeA"; "extra"].
Proof. reflexivity. Qed.
Example split_ex2 : split "/" "a//" = ["a"; ""; ""].
Proof. reflexivity. Qed.
Example dedup_sort_ex : dedup (sort ["viewer"; "admin"; "viewer"; "editor"]) = ["admin"; "editor"; "viewer"].
Proof. vm_compute. reflexivity. Qed.

Example trim_ex : trim " 	 ab c  " = "ab c".
Proof. reflexivity. Qed.

(** ** [dedup (sort l)] is a canonical form of the set of elements of [l] *)

#[local] Instance string_lt_trans : Transitive string_lt.
Proof.
  intros a b c [Hab Hne1] [Hbc Hne2]. split; [by trans b|].
  intros ->. apply Hne1. by apply (anti_symm String.le).
Qed.

Lemma dedup_cons_cons (x y : string) (l : list string) :
  dedup (x :: y :: l) = if String.eqb x y then dedup (y :: l) else x :: dedup (y :: l).
Proof. reflexivity. Qed.

Lemma dedup_cons_head (x : string) (l : list string) : exists t, dedup (x :: l) = x :: t.
Proof.
  revert x. induction l as [|y l IH]; intros x; [by exists []|].
  rewrite dedup_cons_cons. destruct (String.eqb_spec x y) as [->|_]; [apply IH|by eexists].
Qed.

Lemma elem_of_dedup (l : list string) (z : string) : z ∈ dedup l <-> z ∈ l.
Proof.
  induction l as [|x [|y l] IH]; [done|done|].
  rewrite dedup_cons_cons. destruct (String.eqb_spec x y) as [->|_].
  - rewrite IH, !elem_of_cons. tauto.
  - rewrite elem_of_cons, IH, (elem_of_cons (y :: l)). tauto.
Qed.

Lemma dedup_Sorted (l : list string) : Sorted String.le l -> Sorted string_lt (dedup l).
Proof.
  induction l as [|x [|y l] IH]; intros Hs; [constructor|repeat constructor|].
  apply Sorted_inv in Hs as [Hs Hhd]. apply HdRel_inv in Hhd.
  rewrite dedup_cons_cons. destruct (String.eqb_spec x y) as [->|Hne]; [by apply IH|].
  destruct (dedup_cons_head y l) as [t Ht]. rewrite Ht in *.
  constructor; [by apply IH|]. constructor. by split.
Qed.

Lemma StronglySorted_lt_NoDup (l : list string) : StronglySorted string_lt l -> NoDup l.
Proof.
  induction 1 as [|x l _ IH Hall]; constructor; [|done].
  intros Hx. rewrite Forall_forall in Hall. by destruct (Hall x Hx).
Qed.

Lemma canon_StronglySorted (l : list string) : StronglySorted string_lt (canon l).
Proof.
  apply Sorted_StronglySorted; [apply _|]. apply dedup_Sorted. apply Sorted_merge_sort. apply _.
Qed.

Lemma elem_of_canon (l : list string) (z : string) : z ∈ canon l <-> z ∈ l.
Proof. unfold canon, sort. rewrite elem_of_dedup. by rewrite merge_sort_Permutation. Qed.

Lemma elem_of_dedup_sort (l : list string) (z : string) : z ∈ dedup (sort l) <-> z ∈ l.
Proof. apply elem_of_canon. Qed.

Lemma canon_NoDup (l : list string) : NoDup (canon l).
Proof. apply StronglySorted_lt_NoDup, canon_StronglySorted. Qed.

Lemma canon_ext (l1 l2 : list string) :
  (forall z, z ∈ l1 <-> z ∈ l2) -> canon l1 = canon l2.
Proof.
  intros Hel. apply (StronglySorted_unique_strong string_lt).
  - intros x1 x2 _ _ [Hle _] [Hle' _]. by apply (anti_symm String.le).
  - apply canon_StronglySorted.
  - apply canon_StronglySorted.
  - apply NoDup_Permutation; [apply canon_NoDup..|].
    intros z. by rewrite !elem_of_canon.
Qed.

(** ** The HashMap merge *)

Lemma find_app {A} (f : A -> bool) (l1 l2 : list A) :
  List.find f (l1 ++ l2) = match List.find f l1 with Some z => Some z | None => List.find f l2 end.
Proof. induction l1 as [|a l1 IH]; simpl; [done|]. by destruct (f a). Qed.

Section merge.
Context {R : Type} `{HasPermissions R}.
Hypothesis id_set : forall r p, rec_id (rec_set_permissions r p) = rec_id r.
Hypothesis perms_set : forall r p, rec_permissions (rec_set_permissions r p) = p.
Hypothesis set_set : forall r p q,
  rec_set_permissions (rec_set_permissions r p) q = rec_set_permissions r q.

Lemma first_with_id_None (i : string) (rs : list R) :
  first_with_id i rs = None <-> ~ exists x, x ∈ rs /\ rec_id x = i.
Proof.
  unfold first_with_id. induction rs as [|y rs IH]; simpl.
  - split; [|done]. intros _ (x & Hx & _). by apply elem_of_nil in Hx.
  - destruct (String.eqb_spec (rec_id y) i) as [Hy|Hy].
    + split; [done|]. intros Hn. exfalso. apply Hn. exists y. split; [left|done].
    + rewrite IH. split.
      * intros Hn (x & Hx & Hxi). apply elem_of_cons in Hx as [->|Hx]; [done|].
        apply Hn. by exists x.
      * intros Hn (x & Hx & Hxi). apply Hn. exists x. split; [by right|done].
Qed.

Lemma first_with_id_Some (i : string) (rs : list R) (x : R) :
  first_with_id i rs = Some x -> x ∈ rs /\ rec_id x = i.
Proof.
  unfold first_with_id. intros Hf. apply find_some in Hf as [Hin Heq].
  apply String.eqb_eq in Heq. split; [by apply list_elem_of_In|done].
Qed.

Lemma merge_entry_comm (m : gmap string R) (a b : R) :
  compatible a b -> merge_entry (merge_entry m a) b = merge_entry (merge_entry m b) a.
Proof.
  intros Hc. unfold merge_entry.
  destruct (decide (rec_id a = rec_id b)) as [Heq|Hne].
  - pose proof (Hc Heq) as Hab. rewrite <- Heq.
    destruct (m !! rec_id a) as [e|] eqn:Hm.
    + rewrite !lookup_insert_eq, !insert_insert_eq, !set_set, !perms_set.
      do 2 f_equal. apply canon_ext. intros z.
      rewrite !elem_of_app, !elem_of_dedup_sort, !elem_of_app. tauto.
    + rewrite !lookup_insert_eq, !insert_insert_eq, Hab.
      do 2 f_equal. apply canon_ext. intros z. rewrite !elem_of_app. tauto.
  - destruct (m !! rec_id a) eqn:Ha, (m !! rec_id b) eqn:Hb;
      rewrite (lookup_insert_ne m (rec_id a) (rec_id b)) by done;
      rewrite (lookup_insert_ne m (rec_id b) (rec_id a)) by congruence;
      rewrite ?Ha, ?Hb; by apply insert_insert_ne.
Qed.

(** Processing pairwise compatible records in any order gives one map. *)
Lemma fold_merge_Permutation (l1 l2 : list R) (m : gmap string R) :
  (forall a b, a ∈ l1 -> b ∈ l1 -> compatible a b) ->
  l1 ≡ₚ l2 -> fold_left merge_entry l1 m = fold_left merge_entry l2 m.
Proof.
  intros Hc HP. revert Hc m.
  induction HP as [|x l1 l2 HP IH|x y l|l1 l2 l3 HP12 IH12 HP23 IH23]; intros Hc m; simpl.
  - done.
  - apply IH. intros a b Ha Hb. apply Hc; by right.
  - rewrite merge_entry_comm; [done|]. apply Hc; [left|right; left].
  - rewrite IH12 by done. apply IH23. intros a b Ha Hb. apply Hc; by rewrite HP12.
Qed.

Lemma merge_all_Permutation (l1 l2 : list R) :
  (forall a b, a ∈ l1 -> b ∈ l1 -> compatible a b) ->
  l1 ≡ₚ l2 -> merge_all l1 = merge_all l2.
Proof. apply fold_merge_Permutation. Qed.
Lemma first_with_id_app (i : string) (l1 l2 : list R) :
  first_with_id i (l1 ++ l2) =
    match first_with_id i l1 with Some z => Some z | None => first_with_id i l2 end.
Proof. apply find_app. Qed.

Lemma merge_entry_lookup (m : gmap string R) (x : R) (i : string) :
  merge_entry m x !! i =
    if decide (rec_id x = i) then
      Some (match m !! rec_id x with
            | Some e => rec_set_permissions e (canon (rec_permissions e ++ rec_permissions x))
            | None => x
            end)
    else m !! i.
Proof.
  unfold merge_entry. destruct (m !! rec_id x); case_decide as Hi; subst;
    rewrite ?lookup_insert_eq; rewrite ?lookup_insert_ne by done; done.
Qed.

Lemma merge_all_snoc (rs : list R) (x : R) :
  merge_all (rs ++ [x]) = merge_entry (merge_all rs) x.
Proof. unfold merge_all. by rewrite fold_left_app. Qed.

Lemma elem_of_snoc (rs : list R) (x y : R) : y ∈ rs ++ [x] <-> y ∈ rs \/ y = x.
Proof. by rewrite elem_of_app, list_elem_of_singleton. Qed.

(** One record per id; its permissions are the duplicate-free union of all
    occurrences; its other fields come from the first occurrence. *)
Lemma merge_all_ok (rs : list R) :
  (forall x, x ∈ rs -> NoDup (rec_permissions x)) -> merged_ok rs (merge_all rs).
Proof.
  induction rs as [|x rs IH] using rev_ind; intros Hnd.
  - unfold merge_all; simpl. split.
    + intros i. rewrite lookup_empty. split; [|done].
      intros _ (x & Hx & _). by apply elem_of_nil in Hx.
    + intros i r. by rewrite lookup_empty.
  - destruct IH as [Hnone Hsome].
    { intros y Hy. apply Hnd, elem_of_snoc. by left. }
    rewrite merge_all_snoc. split.
    + intros i. rewrite merge_entry_lookup. case_decide as Hi.
      * split; [done|]. intros Hn. exfalso. apply Hn. exists x. rewrite elem_of_snoc. auto.
      * rewrite Hnone. split.
        -- intros Hn (y & Hy & Hyi). apply elem_of_snoc in Hy as [Hy| ->]; [|done].
           apply Hn. by exists y.
        -- intros Hn (y & Hy & Hyi). apply Hn. exists y. rewrite elem_of_snoc. auto.
    + intros i r. rewrite merge_entry_lookup, first_with_id_app. case_decide as Hi.
      * subst i. destruct (merge_all rs !! rec_id x) as [e|] eqn:Hm; intros [= <-].
        -- destruct (Hsome _ _ Hm) as (He & Hnde & Hpe & (y & Hy & Hye)).
           rewrite Hy. split; [by rewrite id_set|]. split; [rewrite perms_set; apply canon_NoDup|].
           split.
           ++ intros p. rewrite perms_set, elem_of_canon, elem_of_app, Hpe. split.
              ** intros [(z & Hz & Hzi & Hp)|Hp].
                 --- exists z. rewrite elem_of_snoc. auto.
                 --- exists x. rewrite elem_of_snoc. auto.
              ** intros (z & Hz & Hzi & Hp). apply elem_of_snoc in Hz as [Hz| ->].
                 --- left. by exists z.
                 --- by right.
           ++ exists y. split; [done|]. intros p. by rewrite set_set.
        -- assert (Hn : ~ exists z, z ∈ rs /\ rec_id z = rec_id x) by (by apply Hnone).
           rewrite (proj2 (first_with_id_None _ _) Hn).
           split; [done|]. split; [apply Hnd, elem_of_snoc; auto|]. split.
           ++ intros p. split.
              ** intros Hp. exists x. rewrite elem_of_snoc. auto.
              ** intros (z & Hz & Hzi & Hp). apply elem_of_snoc in Hz as [Hz| ->]; [|done].
                 exfalso. apply Hn. by exists z.
           ++ exists x. split; [|done]. unfold first_with_id. simpl. by rewrite String.eqb_refl.
      * intros Hm. destruct (Hsome _ _ Hm) as (He & Hnde & Hpe & (y & Hy & Hye)).
        rewrite Hy. split; [done|]. split; [done|]. split; [|by exists y].
        intros p. rewrite Hpe. split.
        -- intros (z & Hz & Hzi & Hp). exists z. rewrite elem_of_snoc. auto.
        -- intros (z & Hz & Hzi & Hp). apply elem_of_snoc in Hz as [Hz| ->]; [by exists z|done].
Qed.
End merge.

(** ** The fan-out loop as a fold over the nine outcomes *)

Lemma get_shared_resources_eq (ctx : OpenFgaConfig.t) (u : AuthUser.t) (au : Authority) :
  get_shared_resources ctx u au =
    (map (fun '(ty, rel) => CallListObjects (shared_list_request ctx (AuthUser.user_id u) ty rel))
         fanout_pairs,
     Ok (OK, merge_shared (collect (fanout_outcomes ctx (AuthUser.user_id u) au)))).
Proof. reflexivity. Qed.

Lemma collect_from_succeeded (acc : Shared) (qs : list Outcome) :
  collect_from acc qs = collect_from acc (List.filter succeeded qs).
Proof.
  revert acc. induction qs as [|[[ty rel] [objs|e]] qs IH]; intros acc; simpl; [done|..];
    apply IH.
Qed.

Lemma shared_app_empty (a : Shared) : shared_app a shared_empty = a.
Proof. destruct a. unfold shared_app; simpl. by rewrite !app_nil_r. Qed.

Lemma push_object_app (ty rel oid : string) (a b : Shared) :
  push_object ty rel (shared_app a b) oid = shared_app a (push_object ty rel b oid).
Proof.
  unfold push_object.
  destruct (String.eqb ty "service"); [|destruct (String.eqb ty "service_type");
    [|destruct (String.eqb ty "resource")]];
  repeat match goal with
  | |- context [match ?x with _ => _ end] => destruct x
  end; try done; unfold shared_app; simpl; by rewrite ?app_assoc.
Qed.

Lemma handle_list_response_app (ty rel : string) (a b : Shared) res :
  handle_list_response ty rel (shared_app a b) res = shared_app a (handle_list_response ty rel b res).
Proof.
  destruct res as [objs|e]; simpl; [|done].
  revert b. induction objs as [|o objs IH]; intros b; simpl; [done|].
  by rewrite push_object_app, IH.
Qed.

Lemma collect_from_app (a b : Shared) (qs : list Outcome) :
  collect_from (shared_app a b) qs = shared_app a (collect_from b qs).
Proof.
  revert b. induction qs as [|[[ty rel] res] qs IH]; intros b; simpl; [done|].
  by rewrite handle_list_response_app, IH.
Qed.

Lemma collect_cons (q : Outcome) (qs : list Outcome) :
  collect (q :: qs) = shared_app (outcome_records q) (collect qs).
Proof.
  destruct q as [[ty rel] res]. unfold collect. simpl.
  rewrite <- (shared_app_empty (handle_list_response ty rel shared_empty res)) at 1.
  by rewrite collect_from_app.
Qed.

Lemma collect_services (qs : list Outcome) :
  shared_services (collect qs) = flat_map (fun q => shared_services (outcome_records q)) qs.
Proof. induction qs as [|q qs IH]; [done|]. rewrite collect_cons. simpl. by rewrite IH. Qed.

Lemma collect_service_types (qs : list Outcome) :
  shared_service_types (collect qs) =
    flat_map (fun q => shared_service_types (outcome_records q)) qs.
Proof. induction qs as [|q qs IH]; [done|]. rewrite collect_cons. simpl. by rewrite IH. Qed.

Lemma collect_resources (qs : list Outcome) :
  shared_resources (collect qs) = flat_map (fun q => shared_resources (outcome_records q)) qs.
Proof. induction qs as [|q qs IH]; [done|]. rewrite collect_cons. simpl. by rewrite IH. Qed.

Lemma push_object_gen (ty rel oid : string) (acc : Shared) :
  shared_gen acc -> shared_gen (push_object ty rel acc oid).
Proof.
  intros (H1 & H2 & H3). unfold push_object.
  destruct (String.eqb ty "service");
    [|destruct (String.eqb ty "service_type"); [|destruct (String.eqb ty "resource")]].
  - destruct (strip_prefix "service:" oid) eqn:Hp; [push_one|by split_and!].
  - destruct (strip_prefix "service_type:" oid) as [path|] eqn:Hp; [|by split_and!].
    destruct (split "/" path) as [|p0 [|p1 [|? ?]]] eqn:Hs; try by split_and!. push_one.
  - destruct (strip_prefix "resource:" oid) as [path|] eqn:Hp; [|by split_and!].
    destruct (split "/" path) as [|p0 [|p1 [|p2 [|? ?]]]] eqn:Hs; try by split_and!. push_one.
  - by split_and!.
Qed.

Lemma collect_from_gen (acc : Shared) (qs : list Outcome) :
  shared_gen acc -> shared_gen (collect_from acc qs).
Proof.
  revert acc. induction qs as [|[[ty rel] [objs|e]] qs IH]; intros acc Hacc; simpl; [done| |by apply IH].
  apply IH. revert acc Hacc. induction objs as [|o objs IHo]; intros acc Hacc; simpl; [done|].
  by apply IHo, push_object_gen.
Qed.

Lemma collect_gen (qs : list Outcome) : shared_gen (collect qs).
Proof. apply collect_from_gen. split_and!; constructor. Qed.

Lemma gen_service_compatible (a b : SharedService.t) :
  gen_service a -> gen_service b -> compatible a b.
Proof.
  intros (Ha & Hva & _) (Hb & Hvb & _) Hid p. cbn in *.
  rewrite Hid in Ha. rewrite Ha in Hb. injection Hb as ->. congruence.
Qed.

Lemma gen_service_type_compatible (a b : SharedServiceType.t) :
  gen_service_type a -> gen_service_type b -> compatible a b.
Proof.
  intros ((pa & Ha & Hsa) & Hva & _) ((pb & Hb & Hsb) & Hvb & _) Hid p. cbn in *.
  rewrite Hid in Ha. rewrite Ha in Hb. injection Hb as ->. rewrite Hsa in Hsb.
  injection Hsb as -> ->. congruence.
Qed.

Lemma gen_resource_compatible (a b : SharedResource.t) :
  gen_resource a -> gen_resource b -> compatible a b.
Proof.
  intros ((pa & Ha & Hsa) & Hva & _) ((pb & Hb & Hsb) & Hvb & _) Hid p. cbn in *.
  rewrite Hid in Ha. rewrite Ha in Hb. injection Hb as ->. rewrite Hsa in Hsb.
  injection Hsb as -> -> ->. congruence.
Qed.

(** ** The merged maps of a sequence of outcomes *)

Lemma merge_shared_Permutation (qs qs' : list Outcome) :
  qs ≡ₚ qs' -> merge_shared (collect qs) = merge_shared (collect qs').
Proof.
  intros HP. destruct (collect_gen qs) as (G1 & G2 & G3).
  rewrite Forall_forall in G1; rewrite Forall_forall in G2; rewrite Forall_forall in G3. unfold merge_shared. f_equal.
  - apply merge_all_Permutation; try (intros; reflexivity).
    + intros a b Ha Hb. apply gen_service_compatible; auto.
    + rewrite !collect_services. by rewrite HP.
  - apply merge_all_Permutation; try (intros; reflexivity).
    + intros a b Ha Hb. apply gen_service_type_compatible; auto.
    + rewrite !collect_service_types. by rewrite HP.
  - apply merge_all_Permutation; try (intros; reflexivity).
    + intros a b Ha Hb. apply gen_resource_compatible; auto.
    + rewrite !collect_resources. by rewrite HP.
Qed.

Lemma merge_shared_ok (qs : list Outcome) :
  merged_ok (shared_services (collect qs)) (services (merge_shared (collect qs))) /\
  merged_ok (shared_service_types (collect qs)) (service_types (merge_shared (collect qs))) /\
  merged_ok (shared_resources (collect qs)) (resources (merge_shared (collect qs))).
Proof.
  destruct (collect_gen qs) as (G1 & G2 & G3).
  rewrite Forall_forall in G1; rewrite Forall_forall in G2; rewrite Forall_forall in G3. split_and!; apply merge_all_ok; try (intros; reflexivity).
  - intros x Hx. destruct (G1 x Hx) as (_ & _ & [rel Hr]). cbn. rewrite Hr. apply NoDup_singleton.
  - intros x Hx. destruct (G2 x Hx) as (_ & _ & [rel Hr]). cbn. rewrite Hr. apply NoDup_singleton.
  - intros x Hx. destruct (G3 x Hx) as (_ & _ & [rel Hr]). cbn. rewrite Hr. apply NoDup_singleton.
Qed.

(** ** C6 *)

(** C6: the discovery merge is order independent. For any reordering [qs]
    of the nine (object type, relation) query outcomes, merging them gives
    exactly the maps [get_shared_resources] returns; in each of the three maps
    the record stored under an id has that id, a duplicate-free permission
    list that is the union of the relations of all occurrences of the id, and
    all its other fields from the first occurrence. *)
Theorem discovery_merge_order_independent (ctx : OpenFgaConfig.t) (u : AuthUser.t)
    (au : Authority) (qs : list Outcome) :
  qs ≡ₚ fanout_outcomes ctx (AuthUser.user_id u) au ->
  snd (get_shared_resources ctx u au) = Ok (OK, merge_shared (collect qs)) /\
  merged_ok (shared_services (collect qs)) (services (merge_shared (collect qs))) /\
  merged_ok (shared_service_types (collect qs)) (service_types (merge_shared (collect qs))) /\
  merged_ok (shared_resources (collect qs)) (resources (merge_shared (collect qs))).
Proof.
  intros HP. rewrite get_shared_resources_eq. simpl.
  split; [by rewrite (merge_shared_Permutation qs _ HP)|]. apply merge_shared_ok.
Qed.

Lemma discovery_merge_order_independent_witness :
  rev (fanout_outcomes cfg_demo "alice" au_demo) ≡ₚ fanout_outcomes cfg_demo "alice" au_demo /\
  snd (get_shared_resources cfg_demo alice au_demo)
    = Ok (OK, merge_shared (collect (rev (fanout_outcomes cfg_demo "alice" au_demo)))).
Proof.
  assert (HP : rev (fanout_outcomes cfg_demo "alice" au_demo) ≡ₚ
               fanout_outcomes cfg_demo "alice" au_demo) by (vm_compute; apply Permutation_rev).
  split; [exact HP|].
  exact (proj1 (discovery_merge_order_independent cfg_demo alice au_demo _ HP)).
Defined.

(** ** C7 *)

Lemma merged_id_from_records {R} `{HasPermissions R} (rs : list R) (m : gmap string R)
    (i : string) (r : R) :
  merged_ok rs m -> m !! i = Some r -> exists x, x ∈ rs /\ rec_id x = i.
Proof.
  intros [_ Hsome] Hm. destruct (Hsome i r Hm) as (_ & _ & _ & (x & Hx & _)).
  exists x. by apply first_with_id_Some.
Qed.

(** C7: an identifier whose path has the wrong number of '/'-separated
    segments never reaches the merged result: every id kept in the
    service_type map is ["service_type:" ++ path] with a 2-segment [path],
    every id kept in the resource map is ["resource:" ++ path] with a
    3-segment [path]; in particular ["service_type:svc/typeA/extra"] is
    absent from the service_type map whatever the authority answers. *)
Theorem discovery_drops_segment_mismatch (ctx : OpenFgaConfig.t) (u : AuthUser.t)
    (au : Authority) (code : StatusCode) (resp : SharedResourcesResponse) :
  snd (get_shared_resources ctx u au) = Ok (code, resp) ->
  (forall i r, service_types resp !! i = Some r ->
     exists path, strip_prefix "service_type:" i = Some path /\ length (split "/" path) = 2) /\
  (forall i r, resources resp !! i = Some r ->
     exists path, strip_prefix "resource:" i = Some path /\ length (split "/" path) = 3) /\
  service_types resp !! "service_type:svc/typeA/extra" = None.
Proof.
  rewrite get_shared_resources_eq. cbn [snd]. intros [= _ <-].
  set (qs := fanout_outcomes ctx (AuthUser.user_id u) au).
  destruct (merge_shared_ok qs) as (_ & Hst & Hr).
  destruct (collect_gen qs) as (_ & G2 & G3).
  rewrite Forall_forall in G2; rewrite Forall_forall in G3.
  assert (Hst' : forall i r, service_types (merge_shared (collect qs)) !! i = Some r ->
     exists path, strip_prefix "service_type:" i = Some path /\ length (split "/" path) = 2).
  { intros i r Hm. destruct (merged_id_from_records _ _ _ _ Hst Hm) as (x & Hx & Hxi).
    destruct (G2 x Hx) as ((path & Hp & Hs) & _). cbn in Hxi. subst i.
    exists path. by rewrite Hs. }
  split; [exact Hst'|]. split.
  - intros i r Hm. destruct (merged_id_from_records _ _ _ _ Hr Hm) as (x & Hx & Hxi).
    destruct (G3 x Hx) as ((path & Hp & Hs) & _). cbn in Hxi. subst i.
    exists path. by rewrite Hs.
  - destruct (service_types (merge_shared (collect qs)) !! "service_type:svc/typeA/extra")
      as [r|] eqn:E; [|done].
    destruct (Hst' _ _ E) as (path & Hp & Hl). vm_compute in Hp. injection Hp as <-.
    vm_compute in Hl. discriminate.
Qed.

Lemma discovery_drops_segment_mismatch_witness :
  snd (get_shared_resources cfg_demo alice au_demo)
    = Ok (OK, merge_shared (collect (fanout_outcomes cfg_demo "alice" au_demo))) /\
  service_types (merge_shared (collect (fanout_outcomes cfg_demo "alice" au_demo)))
    !! "service_type:svc/typeA/extra" = None.
Proof.
  assert (H : snd (get_shared_resources cfg_demo alice au_demo)
    = Ok (OK, merge_shared (collect (fanout_outcomes cfg_demo "alice" au_demo)))) by reflexivity.
  split; [exact H|].
  exact (proj2 (proj2 (discovery_drops_segment_mismatch cfg_demo alice au_demo _ _ H))).
Defined.

(** The kept ids of the demo fan-out, computed. *)
Example discovery_demo_kept :
  map fst (map_to_list (service_types (merge_shared (collect (fanout_outcomes cfg_demo "alice" au_demo)))))
    ≡ₚ ["service_type:svc/typeA"; "service_type:svc/typeB"].
Proof. vm_compute. apply Permutation_swap || reflexivity. Qed.

(** ** C4 *)

(** C4 (as the code has it): [get_shared_resources] always answers
    [Ok (200, ..)]; the maps are the merge of exactly the queries that
    succeeded, failed queries contribute nothing, whichever and however many
    of the nine fail. *)
Theorem shared_resources_always_ok (ctx : OpenFgaConfig.t) (u : AuthUser.t) (au : Authority) :
  snd (get_shared_resources ctx u au) =
    Ok (OK, merge_shared (collect (List.filter succeeded (fanout_outcomes ctx (AuthUser.user_id u) au)))).
Proof.
  rewrite get_shared_resources_eq. cbn [snd]. unfold collect.
  by rewrite <- collect_from_succeeded.
Qed.

(** C4 counterexample: with the authority unreachable, all nine queries
    fail, yet no hard error is surfaced: the answer is 200 with empty maps. *)
Lemma shared_resources_total_failure_ok :
  (forall r, fga_list_objects au_down r = Err "transport error") /\
  length (fst (get_shared_resources cfg_demo alice au_down)) = 9 /\
  snd (get_shared_resources cfg_demo alice au_down)
    = Ok (OK, {| services := ∅; service_types := ∅; resources := ∅ |}).
Proof. split; [done|]. split; reflexivity. Qed.

(** ** C2 *)

(** C2: with a store id and a model id configured, [check_permission]
    sends exactly one Check request, carrying the tuple
    (["user:" ++ user_id], relation, object) and the configured ids, and it
    returns [Ok b] exactly when the authority answered [allowed = b]. *)
Theorem check_permission_sends_tuple (cfg : OpenFgaConfig.t)
    (user_id relation object_id mid : string) (au : Authority) :
  OpenFgaConfig.store_id cfg <> "" ->
  OpenFgaConfig.authorization_model_id cfg = Some mid ->
  let req := CheckRequest.mk (OpenFgaConfig.store_id cfg)
               (Some (CheckRequestTupleKey.mk ("user:" +:+ user_id) relation object_id)) mid in
  fst (check_permission cfg user_id relation object_id au) = [CallCheck req] /\
  (forall b, snd (check_permission cfg user_id relation object_id au) = Ok b <->
             fga_check au req = Ok b).
Proof.
  intros Hs Hm req. unfold check_permission.
  destruct (String.eqb_spec (OpenFgaConfig.store_id cfg) "") as [|_]; [done|].
  rewrite Hm. unfold mbind, M_bind, mret, M_ret, rpc_check. fold req.
  destruct (fga_check au req) as [allowed|e]; simpl.
  - split; [done|]. intros b. split; congruence.
  - destruct (contains "transport error" e || contains "Connection refused" e); simpl;
      (split; [done|]); intros b; split; congruence.
Qed.

Lemma check_permission_sends_tuple_witness :
  OpenFgaConfig.store_id cfg_demo <> "" /\
  OpenFgaConfig.authorization_model_id cfg_demo = Some "model1" /\
  fst (check_permission cfg_demo "alice" "viewer" "resource:svc/typeA/res1" au_demo)
    = [CallCheck (CheckRequest.mk "store1"
         (Some (CheckRequestTupleKey.mk "user:alice" "viewer" "resource:svc/typeA/res1")) "model1")].
Proof.
  assert (Hs : OpenFgaConfig.store_id cfg_demo <> "") by (vm_compute; discriminate).
  assert (Hm : OpenFgaConfig.authorization_model_id cfg_demo = Some "model1") by reflexivity.
  split; [exact Hs|]. split; [exact Hm|].
  exact (proj1 (check_permission_sends_tuple cfg_demo "alice" "viewer" "resource:svc/typeA/res1"
                  "model1" au_demo Hs Hm)).
Defined.

(** ** C3 *)

(** C3 (code_bug): [check_permission] refuses a missing store id before any
    request, but [list_objects] and [get_shared_resources] do not check the
    configuration: with an empty store id and no model id they still send
    their ListObjects requests, with empty ids. *)
Lemma missing_config_list_requests_sent :
  fst (check_permission cfg_missing "alice" "viewer" "resource:svc/typeA/res1" au_demo) = [] /\
  snd (check_permission cfg_missing "alice" "viewer" "resource:svc/typeA/res1" au_demo)
    = Err "OpenFGA store ID not configured" /\
  fst (list_objects cfg_missing alice (ListQueryParams.mk None None) au_demo)
    = [CallListObjects (ListObjectsRequest.mk "" "" "resource" 8 "viewer" "alice")] /\
  length (fst (get_shared_resources cfg_missing alice au_demo)) = 9.
Proof. split_and!; reflexivity. Qed.

(** ** C5 *)


(** C5 (code_bug): only [check_permission] prefixes the principal with
    ["user:"]; the single-query and the nine discovery ListObjects requests
    send the bare user id. *)
Lemma list_requests_send_bare_user :
  map call_user (fst (check_permission cfg_demo "alice" "viewer" "resource:svc/typeA/res1" au_demo))
    = ["user:alice"] /\
  map call_user (fst (list_objects cfg_demo alice (ListQueryParams.mk None None) au_demo))
    = ["alice"] /\
  map call_user (fst (get_shared_resources cfg_demo alice au_demo)) = repeat "alice" 9.
Proof. split_and!; reflexivity. Qed.

(** ** C1 *)

(** C1 (code_bug): the relations are the table's, create checks
    ["organisation:<org_id>"], but update, read and delete check the bare
    path ["<service>/<type>/<org>/<name>"], without the ["resource:"] prefix. *)
Lemma crud_check_targets :
  fst (create_resource cfg_demo alice params_demo au_demo)
    = [CallCheck (CheckRequest.mk "store1"
         (Some (CheckRequestTupleKey.mk "user:alice" "admin" "organisation:org1")) "model1")] /\
  fst (update_resource cfg_demo alice params_demo au_demo)
    = [CallCheck (CheckRequest.mk "store1"
         (Some (CheckRequestTupleKey.mk "user:alice" "editor" "svcA/typeB/org1/res1")) "model1")] /\
  fst (get_resource cfg_demo alice params_demo au_demo)
    = [CallCheck (CheckRequest.mk "store1"
         (Some (CheckRequestTupleKey.mk "user:alice" "viewer" "svcA/typeB/org1/res1")) "model1")] /\
  fst (delete_resource cfg_demo alice params_demo au_demo)
    = [CallCheck (CheckRequest.mk "store1"
         (Some (CheckRequestTupleKey.mk "user:alice" "owner" "svcA/typeB/org1/res1")) "model1")].
Proof. split_and!; reflexivity. Qed.

(** ** C8 *)

Lemma crud_contract_bind (chk : M (result bool string)) (ok_v : StatusCode * Value)
    (denied : Value) (au : Authority) :
  crud_contract (chk au)
    ((r ← chk;
      mret match r with
      | Ok allowed => if negb allowed then Err (FORBIDDEN, denied) else Ok ok_v
      | Err e => Err (INTERNAL_SERVER_ERROR, check_failed_body e)
      end) au).
Proof.
  unfold mbind, M_bind, mret, M_ret, crud_contract.
  destruct (chk au) as [t [[|]|e]]; simpl; rewrite app_nil_r;
    split_and!; try done; intros; simplify_eq; eauto.
  destruct ok_v; eauto.
Qed.

(** C8: for each of the four resource handlers, the handler sends nothing
    beyond its permission check; a denial gives 403, a checker error gives
    500 (with the error message), and a success is returned only when the
    check answered [Ok true]. *)
Theorem crud_denial_and_error_distinct (ctx : OpenFgaConfig.t) (u : AuthUser.t)
    (p : ResourceParams.t) (au : Authority) :
  crud_contract (check_permission ctx (AuthUser.user_id u) "admin"
                   ("organisation:" +:+ ResourceParams.org_id p) au)
                (create_resource ctx u p au) /\
  crud_contract (check_permission ctx (AuthUser.user_id u) "editor" (resource_key_of p) au)
                (update_resource ctx u p au) /\
  crud_contract (check_permission ctx (AuthUser.user_id u) "viewer" (resource_key_of p) au)
                (get_resource ctx u p au) /\
  crud_contract (check_permission ctx (AuthUser.user_id u) "owner" (resource_key_of p) au)
                (delete_resource ctx u p au).
Proof. split_and!; apply crud_contract_bind. Qed.

(** ** C9 *)

(** C9: [list_objects] defaults the relation to ["viewer"] and the object
    type to ["resource"], sends exactly one ListObjects request, answers 200
    with the authority's objects in order, their count and the echoed type
    and relation, and answers 500 when that one request fails. *)
Theorem list_objects_single_query (ctx : OpenFgaConfig.t) (u : AuthUser.t)
    (params : ListQueryParams.t) (au : Authority) :
  let relation := unwrap_or (ListQueryParams.relation params) "viewer" in
  let object_type := unwrap_or (ListQueryParams.object_type params) "resource" in
  let req := ListObjectsRequest.mk (OpenFgaConfig.store_id ctx)
               (unwrap_or (OpenFgaConfig.authorization_model_id ctx) "")
               object_type 8 relation (AuthUser.user_id u) in
  (ListQueryParams.relation params = None -> relation = "viewer") /\
  (ListQueryParams.object_type params = None -> object_type = "resource") /\
  fst (list_objects ctx u params au) = [CallListObjects req] /\
  (forall objs, fga_list_objects au req = Ok objs ->
     snd (list_objects ctx u params au) =
       Ok (OK, VObject [("objects", VArray (map VString objs));
                        ("total_count", VNumber (N.of_nat (length objs)));
                        ("object_type", VString object_type);
                        ("relation", VString relation)])) /\
  (forall e, fga_list_objects au req = Err e ->
     exists body, snd (list_objects ctx u params au) = Err (INTERNAL_SERVER_ERROR, body)).
Proof.
  intros relation object_type req. subst relation object_type req.
  split; [by intros ->|]. split; [by intros ->|].
  unfold list_objects, mbind, M_bind, mret, M_ret, rpc_list_objects.
  split; [by destruct (fga_list_objects au _)|].
  split; intros ? Hr; rewrite Hr; simpl; eauto.
Qed.

(** ** C10 *)

Lemma trim_start_all_ws (l : list ascii) : forallb is_whitespace l = true -> trim_start l = [].
Proof.
  induction l as [|c l IH]; simpl; [done|].
  intros [Hc Hl]%andb_prop. rewrite Hc. by apply IH.
Qed.

Lemma forallb_false_exists {A} (f : A -> bool) (l : list A) :
  forallb f l = false -> exists c, c ∈ l /\ f c = false.
Proof.
  induction l as [|c l IH]; simpl; [done|].
  destruct (f c) eqn:Hc; simpl.
  - intros (d & Hd & Hfd)%IH. exists d. split; [by right|done].
  - intros _. exists c. split; [left|done].
Qed.

(** C10: the middleware answers 401 when there is no X-User-Id header, 400
    when the value is whitespace only (the empty value included) or holds a
    byte that is not ASCII (so any value that is not valid UTF-8), and
    otherwise runs the handler with an [AuthUser] whose id is the header
    value and holds a non-whitespace character. *)
Theorem auth_middleware_rejects {A} (headers : HeaderMap) (next : AuthUser.t -> A) :
  (header_get headers "x-user-id" = None ->
     exists body, auth_middleware headers next = Err (UNAUTHORIZED, body)) /\
  (forall v, header_get headers "x-user-id" = Some v ->
     forallb is_whitespace (String.list_ascii_of_string v) = true ->
     exists body, auth_middleware headers next = Err (BAD_REQUEST, body)) /\
  (forall v c, header_get headers "x-user-id" = Some v ->
     c ∈ String.list_ascii_of_string v -> 128 <= nat_of_ascii c ->
     exists body, auth_middleware headers next = Err (BAD_REQUEST, body)) /\
  (forall a, auth_middleware headers next = Ok a ->
     exists u, a = next u /\ header_get headers "x-user-id" = Some (AuthUser.user_id u) /\
       exists c, c ∈ String.list_ascii_of_string (AuthUser.user_id u) /\ is_whitespace c = false).
Proof.
  unfold auth_middleware. destruct (header_get headers "x-user-id") as [v|] eqn:Hg.
  - split_and!.
    + intros [=].
    + intros ? [= <-] Hws. unfold header_to_str.
      destruct (forallb is_visible_ascii _); [|eauto].
      unfold trim. rewrite (trim_start_all_ws _ Hws). simpl. eauto.
    + intros ? c [= <-] Hc Hge. unfold header_to_str.
      destruct (forallb is_visible_ascii _) eqn:Hf; [|eauto]. exfalso.
      rewrite forallb_forall in Hf. apply list_elem_of_In, Hf in Hc.
      unfold is_visible_ascii in Hc. apply orb_prop in Hc as [Hc|Hc].
      * apply andb_prop in Hc as [_ Hc]. apply Nat.ltb_lt in Hc. lia.
      * apply Nat.eqb_eq in Hc. lia.
    + intros a. unfold header_to_str.
      destruct (forallb is_visible_ascii _) eqn:Hv; [|done].
      destruct (String.eqb (trim v) "") eqn:Ht; [done|]. intros [= <-].
      exists (AuthUser.mk v). split; [done|]. split; [done|]. simpl.
      destruct (forallb is_whitespace (String.list_ascii_of_string v)) eqn:Hw.
      * exfalso. unfold trim in Ht. rewrite (trim_start_all_ws _ Hw) in Ht.
        simpl in Ht. discriminate.
      * by apply forallb_false_exists.
  - split_and!; [eauto|intros ? [=]|intros ? ? [=]|intros ? [=]].
Qed.

(** * Further properties of the code *)

(** ** [check_permission] *)

(** The request [check_permission] builds from a valid configuration. *)
Lemma check_permission_configured (cfg : OpenFgaConfig.t)
    (user_id relation object_id mid : string) (au : Authority) :
  OpenFgaConfig.store_id cfg <> "" ->
  OpenFgaConfig.authorization_model_id cfg = Some mid ->
  let req := CheckRequest.mk (OpenFgaConfig.store_id cfg)
               (Some (CheckRequestTupleKey.mk ("user:" +:+ user_id) relation object_id)) mid in
  check_permission cfg user_id relation object_id au =
    ([CallCheck req],
     match fga_check au req with
     | Ok allowed => Ok allowed
     | Err e =>
         if contains "transport error" e || contains "Connection refused" e
         then Err "OpenFGA server is not available. Please check server status and configuration."
         else Err ("OpenFGA permission check failed: " +:+ e)
     end).
Proof.
  intros Hs Hm req. unfold check_permission.
  destruct (String.eqb_spec (OpenFgaConfig.store_id cfg) "") as [|_]; [done|].
  rewrite Hm. unfold mbind, M_bind, mret, M_ret, rpc_check. fold req.
  destruct (fga_check au req) as [allowed|e]; simpl; [done|].
  by destruct (contains "transport error" e || contains "Connection refused" e).
Qed.

(** X1: with a valid configuration, a failed Check RPC is never turned into
    an answer: an error whose text contains "transport error" or "Connection
    refused" becomes the fixed "server is not available" message, any other
    error [e] becomes "OpenFGA permission check failed: " followed by [e]. *)
Theorem check_permission_error_classification (cfg : OpenFgaConfig.t)
    (user_id relation object_id mid e : string) (au : Authority) :
  OpenFgaConfig.store_id cfg <> "" ->
  OpenFgaConfig.authorization_model_id cfg = Some mid ->
  fga_check au (CheckRequest.mk (OpenFgaConfig.store_id cfg)
    (Some (CheckRequestTupleKey.mk ("user:" +:+ user_id) relation object_id)) mid) = Err e ->
  ((contains "transport error" e = true \/ contains "Connection refused" e = true) ->
     snd (check_permission cfg user_id relation object_id au)
       = Err "OpenFGA server is not available. Please check server status and configuration.") /\
  (contains "transport error" e = false -> contains "Connection refused" e = false ->
     snd (check_permission cfg user_id relation object_id au)
       = Err ("OpenFGA permission check failed: " +:+ e)).
Proof.
  intros Hs Hm He. rewrite (check_permission_configured cfg user_id relation object_id mid au Hs Hm).
  simpl. rewrite He. split.
  - intros [-> | ->]; [done|]. by rewrite orb_true_r.
  - intros -> ->. done.
Qed.

Lemma check_permission_error_classification_witness :
  OpenFgaConfig.store_id cfg_demo <> "" /\
  OpenFgaConfig.authorization_model_id cfg_demo = Some "model1" /\
  snd (check_permission cfg_demo "alice" "viewer" "organisation:org1" au_down)
    = Err "OpenFGA server is not available. Please check server status and configuration.".
Proof.
  assert (Hs : OpenFgaConfig.store_id cfg_demo <> "") by (vm_compute; discriminate).
  assert (Hm : OpenFgaConfig.authorization_model_id cfg_demo = Some "model1") by reflexivity.
  split; [exact Hs|]. split; [exact Hm|].
  apply (proj1 (check_permission_error_classification cfg_demo "alice" "viewer" "organisation:org1"
                  "model1" "transport error" au_down Hs Hm eq_refl)).
  left. reflexivity.
Defined.

(** X2: [check_permission] validates the configuration before sending
    anything: an empty store id gives the store error whatever the model id,
    and a store id without a model id gives the model error; in both cases no
    request is sent. *)
Theorem check_permission_config_errors (cfg : OpenFgaConfig.t)
    (user_id relation object_id : string) (au : Authority) :
  (OpenFgaConfig.store_id cfg = "" ->
     check_permission cfg user_id relation object_id au
       = ([], Err "OpenFGA store ID not configured")) /\
  (OpenFgaConfig.store_id cfg <> "" -> OpenFgaConfig.authorization_model_id cfg = None ->
     check_permission cfg user_id relation object_id au
       = ([], Err "OpenFGA authorization model ID not configured")).
Proof.
  unfold check_permission. split.
  - intros ->. reflexivity.
  - intros Hs Hm. destruct (String.eqb_spec (OpenFgaConfig.store_id cfg) "") as [|_]; [done|].
    by rewrite Hm.
Qed.

(** ** [get_fga_config] *)


Lemma check_permission_config_errors_witness :
  check_permission cfg_missing "alice" "viewer" "organisation:org1" au_demo
    = ([], Err "OpenFGA store ID not configured") /\
  check_permission (OpenFgaConfig.mk "store1" None) "alice" "viewer" "organisation:org1" au_demo
    = ([], Err "OpenFGA authorization model ID not configured").
Proof.
  split.
  - apply (proj1 (check_permission_config_errors cfg_missing "alice" "viewer" "organisation:org1"
                    au_demo)). reflexivity.
  - apply (proj2 (check_permission_config_errors (OpenFgaConfig.mk "store1" None) "alice" "viewer"
                    "organisation:org1" au_demo)); [vm_compute; discriminate|reflexivity].
Defined.


(** ** The four resource handlers when the check is granted *)

(** X4: with a valid configuration and the authority granting the check of
    each handler, the handler sends exactly that one Check request and
    succeeds: create answers 201 with the organisation id, update and delete
    answer 200 with the [resource_id] key, and read answers 200 echoing the
    key and the four path fields. *)
Theorem crud_granted_responses (ctx : OpenFgaConfig.t) (u : AuthUser.t) (p : ResourceParams.t)
    (mid : string) (au : Authority) :
  OpenFgaConfig.store_id ctx <> "" ->
  OpenFgaConfig.authorization_model_id ctx = Some mid ->
  let req rel obj := CheckRequest.mk (OpenFgaConfig.store_id ctx)
        (Some (CheckRequestTupleKey.mk ("user:" +:+ AuthUser.user_id u) rel obj)) mid in
  let key := resource_key_of p in
  (fga_check au (req "admin" ("organisation:" +:+ ResourceParams.org_id p)) = Ok true ->
     create_resource ctx u p au =
       ([CallCheck (req "admin" ("organisation:" +:+ ResourceParams.org_id p))],
        Ok (CREATED, VObject [("message", VString "Resource created successfully");
                              ("organisation", VString (ResourceParams.org_id p))]))) /\
  (fga_check au (req "editor" key) = Ok true ->
     update_resource ctx u p au =
       ([CallCheck (req "editor" key)],
        Ok (OK, VObject [("message", VString "Resource updated successfully");
                         ("resource_id", VString key)]))) /\
  (fga_check au (req "viewer" key) = Ok true ->
     get_resource ctx u p au =
       ([CallCheck (req "viewer" key)],
        Ok (OK, VObject [("resource_id", VString key);
                         ("name", VString (ResourceParams.name p));
                         ("service_name", VString (ResourceParams.service_name p));
                         ("service_type", VString (ResourceParams.service_type p));
                         ("org_id", VString (ResourceParams.org_id p))]))) /\
  (fga_check au (req "owner" key) = Ok true ->
     delete_resource ctx u p au =
       ([CallCheck (req "owner" key)],
        Ok (OK, VObject [("message", VString "Resource deleted successfully");
                         ("resource_id", VString key)]))).
Proof.
  intros Hs Hm req key.
  split_and!; intros Hc;
    [unfold create_resource|unfold update_resource|unfold get_resource|unfold delete_resource];
    unfold mbind at 1, M_bind at 1;
    rewrite (check_permission_configured _ _ _ _ mid au Hs Hm);
    subst req key; simpl in Hc |- *; rewrite Hc; reflexivity.
Qed.

Lemma crud_granted_responses_witness :
  create_resource cfg_demo alice params_demo au_demo =
    ([CallCheck (CheckRequest.mk "store1"
        (Some (CheckRequestTupleKey.mk "user:alice" "admin" "organisation:org1")) "model1")],
     Ok (CREATED, VObject [("message", VString "Resource created successfully");
                           ("organisation", VString "org1")])).
Proof.
  apply (proj1 (crud_granted_responses cfg_demo alice params_demo "model1" au_demo
                  ltac:(vm_compute; discriminate) eq_refl)).
  reflexivity.
Defined.

(** ** The check key of the resource routes *)

Lemma string_app_nil_r (s : string) : s +:+ "" = s.
Proof.
  induction s as [|c s IH]; [done|].
  change (String c s +:+ "") with (String c (s +:+ "")). by rewrite IH.
Qed.

Lemma string_app_assoc (a b c : string) : (a +:+ b) +:+ c = a +:+ (b +:+ c).
Proof.
  induction a as [|x a IH]; [done|].
  change (String x ((a +:+ b) +:+ c) = String x (a +:+ (b +:+ c))). by rewrite IH.
Qed.

Lemma contains_cons (c d : ascii) (s : string) :
  contains (String c "") (String d s) = false <-> c <> d /\ contains (String c "") s = false.
Proof.
  simpl. destruct (ascii_dec c d) as [->|Hne]; simpl.
  - split; [|intros [H _]; by exfalso]. by destruct s.
  - split; [intros H; by split|]. by intros [_ H].
Qed.

Lemma split_go_nosep (c : ascii) (cur s : string) :
  contains (String c "") s = false -> split_go c cur s = [cur +:+ s].
Proof.
  revert cur. induction s as [|d s IH]; intros cur Hs; simpl.
  - by rewrite string_app_nil_r.
  - apply contains_cons in Hs as [Hne Hs].
    destruct (Ascii.eqb_spec d c) as [->|_]; [done|].
    rewrite IH by done. by rewrite string_app_assoc.
Qed.

Lemma split_go_sep (c : ascii) (cur s1 s2 : string) :
  contains (String c "") s1 = false ->
  split_go c cur (s1 +:+ String c s2) = (cur +:+ s1) :: split_go c "" s2.
Proof.
  revert cur. induction s1 as [|d s1 IH]; intros cur Hs.
  - change (split_go c cur (String c s2) = (cur +:+ "") :: split_go c "" s2).
    simpl. rewrite Ascii.eqb_refl. by rewrite string_app_nil_r.
  - change (split_go c cur (String d (s1 +:+ String c s2)) = (cur +:+ String d s1) :: split_go c "" s2).
    simpl. apply contains_cons in Hs as [Hne Hs].
    destruct (Ascii.eqb_spec d c) as [->|_]; [done|].
    rewrite IH by done. by rewrite string_app_assoc.
Qed.

(** X5: when no path field contains a slash, splitting the check key
    [resource_key_of p] at "/" gives back the four fields in order, so two
    such parameter sets with the same key are equal. *)
Theorem resource_key_split (p : ResourceParams.t) :
  contains "/" (ResourceParams.service_name p) = false ->
  contains "/" (ResourceParams.service_type p) = false ->
  contains "/" (ResourceParams.org_id p) = false ->
  contains "/" (ResourceParams.name p) = false ->
  split "/" (resource_key_of p) =
    [ResourceParams.service_name p; ResourceParams.service_type p;
     ResourceParams.org_id p; ResourceParams.name p] /\
  (forall q : ResourceParams.t,
     contains "/" (ResourceParams.service_name q) = false ->
     contains "/" (ResourceParams.service_type q) = false ->
     contains "/" (ResourceParams.org_id q) = false ->
     contains "/" (ResourceParams.name q) = false ->
     resource_key_of q = resource_key_of p -> q = p).
Proof.
  assert (Hsplit : forall r : ResourceParams.t,
    contains "/" (ResourceParams.service_name r) = false ->
    contains "/" (ResourceParams.service_type r) = false ->
    contains "/" (ResourceParams.org_id r) = false ->
    contains "/" (ResourceParams.name r) = false ->
    split "/" (resource_key_of r) =
      [ResourceParams.service_name r; ResourceParams.service_type r;
       ResourceParams.org_id r; ResourceParams.name r]).
  { intros [a b c d] Ha Hb Hc Hd. unfold resource_key_of, split; simpl in *.
    change (split_go "/" "" (a +:+ String "/" (b +:+ String "/" (c +:+ String "/" d))) =
            [a; b; c; d]).
    rewrite (split_go_sep _ _ a) by done. rewrite (split_go_sep _ _ b) by done.
    rewrite (split_go_sep _ _ c) by done. by rewrite split_go_nosep. }
  intros Ha Hb Hc Hd. split; [by apply Hsplit|].
  intros q Ha' Hb' Hc' Hd' Hk.
  pose proof (Hsplit p Ha Hb Hc Hd) as Hp. pose proof (Hsplit q Ha' Hb' Hc' Hd') as Hq.
  rewrite Hk, Hp in Hq. destruct p, q. simpl in Hq. by simplify_eq.
Qed.

Lemma resource_key_split_witness :
  split "/" (resource_key_of params_demo) = ["svcA"; "typeB"; "org1"; "res1"].
Proof. exact (proj1 (resource_key_split params_demo eq_refl eq_refl eq_refl eq_refl)). Defined.

(** X6: the check key is ambiguous as soon as a field may contain a slash:
    two different resources, ("a/b", "c", "org", "n") and ("a", "b/c", "org",
    "n"), are checked against the same object. *)
Theorem resource_key_collision :
  exists p q : ResourceParams.t, p <> q /\ resource_key_of p = resource_key_of q.
Proof.
  exists (ResourceParams.mk "a/b" "c" "org" "n"), (ResourceParams.mk "a" "b/c" "org" "n").
  split; [intros [=]|reflexivity].
Qed.

(** ** [auth_middleware]: the accepted headers *)

Lemma trim_start_ws (l : list ascii) :
  forallb is_whitespace (trim_start l) = true -> forallb is_whitespace l = true.
Proof.
  induction l as [|c l IH]; simpl; [done|].
  destruct (is_whitespace c) eqn:Hc; simpl; [apply IH|rewrite Hc; auto].
Qed.

Lemma forallb_rev' {A} (f : A -> bool) (l : list A) : forallb f (rev l) = forallb f l.
Proof.
  induction l as [|x l IH]; simpl; [done|].
  rewrite forallb_app, IH. simpl. by rewrite andb_true_r, andb_comm.
Qed.

Lemma trim_empty_ws (s : string) :
  trim s = "" -> forallb is_whitespace (String.list_ascii_of_string s) = true.
Proof.
  unfold trim. intros Ht.
  destruct (rev (trim_start (rev (trim_start (String.list_ascii_of_string s))))) as [|c l]
    eqn:Hr; [|discriminate].
  apply (f_equal (@rev ascii)) in Hr. rewrite rev_involutive in Hr. simpl in Hr.
  apply trim_start_ws. rewrite <- (rev_involutive (trim_start _)).
  rewrite forallb_rev'. apply trim_start_ws. by rewrite Hr.
Qed.

Lemma auth_middleware_ok_eq {A} (headers : HeaderMap) (next : AuthUser.t -> A) (v : string) :
  header_get headers "x-user-id" = Some v ->
  forallb is_visible_ascii (String.list_ascii_of_string v) = true ->
  forallb is_whitespace (String.list_ascii_of_string v) = false ->
  auth_middleware headers next = Ok (next (AuthUser.mk v)).
Proof.
  intros Hg Hv Hw. unfold auth_middleware. rewrite Hg. unfold header_to_str. rewrite Hv.
  destruct (String.eqb_spec (trim v) "") as [Ht|_]; [|done].
  apply trim_empty_ws in Ht. congruence.
Qed.

(** X7: a first X-User-Id value made of visible ASCII characters (or tabs)
    with at least one non-whitespace character is accepted: the handler runs
    with exactly that value as user id, surrounding whitespace included. *)
Theorem auth_middleware_accepts {A} (headers : HeaderMap) (next : AuthUser.t -> A) (v : string) :
  header_get headers "x-user-id" = Some v ->
  forallb is_visible_ascii (String.list_ascii_of_string v) = true ->
  forallb is_whitespace (String.list_ascii_of_string v) = false ->
  auth_middleware headers next = Ok (next (AuthUser.mk v)).
Proof. apply auth_middleware_ok_eq. Qed.

Lemma auth_middleware_accepts_witness :
  auth_middleware [("x-user-id", " alice ")] AuthUser.user_id = Ok " alice ".
Proof. exact (auth_middleware_accepts [("x-user-id", " alice ")] AuthUser.user_id " alice "
                eq_refl eq_refl eq_refl). Defined.

(** ** Discovery: which records the loop pushes *)

Lemma strip_prefix_Some (p s t : string) : strip_prefix p s = Some t <-> s = p +:+ t.
Proof.
  revert s. induction p as [|c p IH]; intros s.
  - simpl. split; [by intros [= ->]|by intros ->].
  - change (String c p +:+ t) with (String c (p +:+ t)).
    destruct s as [|d s]; simpl; [split; discriminate|].
    destruct (Ascii.eqb_spec c d) as [->|Hne].
    + rewrite IH. split; [by intros ->|by intros [=]].
    + split; [discriminate|]. by intros [= ->].
Qed.

Lemma fold_push_empty (ty rel : string) (objs : list string) (a : Shared) :
  fold_left (push_object ty rel) objs a =
    shared_app a (fold_left (push_object ty rel) objs shared_empty).
Proof.
  rewrite <- (shared_app_empty a) at 1.
  exact (handle_list_response_app ty rel a shared_empty (Ok objs)).
Qed.

Lemma fold_push_flat (ty rel : string) (objs : list string) :
  fold_left (push_object ty rel) objs shared_empty =
    fold_right (fun oid acc => shared_app (push_object ty rel shared_empty oid) acc)
      shared_empty objs.
Proof.
  induction objs as [|o objs IH]; simpl; [done|]. by rewrite fold_push_empty, IH.
Qed.

Lemma collect_nil : collect [] = shared_empty.
Proof. reflexivity. Qed.

Section collect_proj.
Context {T : Type} (proj : Shared -> list T).
Hypothesis proj_app : forall a b, proj (shared_app a b) = proj a ++ proj b.
Hypothesis proj_empty : proj shared_empty = [].

Lemma elem_of_fold_push_proj (ty rel : string) (objs : list string) (x : T) :
  x ∈ proj (fold_left (push_object ty rel) objs shared_empty) <->
  exists oid, oid ∈ objs /\ x ∈ proj (push_object ty rel shared_empty oid).
Proof.
  rewrite fold_push_flat. induction objs as [|o objs IH]; simpl.
  - rewrite proj_empty. split; [by intros ?%elem_of_nil|]. by intros (? & ?%elem_of_nil & _).
  - rewrite proj_app, elem_of_app, IH. split.
    + intros [Hx|(oid & Ho & Hx)]; [exists o; split; [left|done]|exists oid; split; [by right|done]].
    + intros (oid & [->|Ho]%elem_of_cons & Hx); [by left|right; by exists oid].
Qed.

Lemma elem_of_collect_proj (qs : list Outcome) (x : T) :
  x ∈ proj (collect qs) <->
  exists ty rel objs oid, (ty, rel, Ok objs) ∈ qs /\ oid ∈ objs /\
    x ∈ proj (push_object ty rel shared_empty oid).
Proof.
  induction qs as [|[[ty rel] res] qs IH].
  - rewrite collect_nil, proj_empty. split; [by intros ?%elem_of_nil|].
    by intros (? & ? & ? & ? & ?%elem_of_nil & _).
  - rewrite collect_cons, proj_app, elem_of_app, IH. simpl. split.
    + intros [Hx|(ty' & rel' & objs & oid & Hq & Ho & Hx)].
      * destruct res as [objs|e]; simpl in Hx; [|by rewrite proj_empty in Hx; apply elem_of_nil in Hx].
        apply elem_of_fold_push_proj in Hx as (oid & Ho & Hx).
        exists ty, rel, objs, oid. split_and!; [left|done|done].
      * exists ty', rel', objs, oid. split_and!; [by right|done|done].
    + intros (ty' & rel' & objs & oid & [Hq|Hq]%elem_of_cons & Ho & Hx).
      * injection Hq as -> -> <-. left. simpl. apply elem_of_fold_push_proj. by exists oid.
      * right. by exists ty', rel', objs, oid.
Qed.
End collect_proj.

Lemma push_services (ty rel oid : string) :
  shared_services (push_object ty rel shared_empty oid) =
    if String.eqb ty "service" then
      match strip_prefix "service:" oid with
      | Some n => [SharedService.mk oid n "parent_organization" [rel]]
      | None => []
      end
    else [].
Proof.
  unfold push_object.
  destruct (String.eqb ty "service"); [|destruct (String.eqb ty "service_type");
    [|destruct (String.eqb ty "resource")]];
  repeat match goal with
  | |- context [match ?x with _ => _ end] => destruct x
  end; reflexivity.
Qed.

Lemma push_service_types (ty rel oid : string) :
  shared_service_types (push_object ty rel shared_empty oid) =
    if String.eqb ty "service_type" then
      match strip_prefix "service_type:" oid with
      | Some path => match split "/" path with
                     | [p0; p1] => [SharedServiceType.mk oid p0 p1 "parent_organization" [rel]]
                     | _ => []
                     end
      | None => []
      end
    else [].
Proof.
  unfold push_object.
  destruct (String.eqb_spec ty "service") as [->|_].
  { destruct (strip_prefix "service:" oid); reflexivity. }
  destruct (String.eqb ty "service_type"); [|destruct (String.eqb ty "resource")];
  repeat match goal with
  | |- context [match ?x with _ => _ end] => destruct x
  end; reflexivity.
Qed.

Lemma push_resources (ty rel oid : string) :
  shared_resources (push_object ty rel shared_empty oid) =
    if String.eqb ty "resource" then
      match strip_prefix "resource:" oid with
      | Some path => match split "/" path with
                     | [p0; p1; p2] =>
                         [SharedResource.mk oid p0 p1 p2 "parent_organization" [rel]]
                     | _ => []
                     end
      | None => []
      end
    else [].
Proof.
  unfold push_object.
  destruct (String.eqb_spec ty "service") as [->|_].
  { destruct (strip_prefix "service:" oid); reflexivity. }
  destruct (String.eqb_spec ty "service_type") as [->|_].
  { destruct (strip_prefix "service_type:" oid) as [path|]; [|reflexivity].
    destruct (split "/" path) as [|? [|? [|? ?]]]; reflexivity. }
  destruct (String.eqb ty "resource");
  repeat match goal with
  | |- context [match ?x with _ => _ end] => destruct x
  end; reflexivity.
Qed.

Lemma elem_of_fanout_outcomes (ctx : OpenFgaConfig.t) (user_id : string) (au : Authority)
    (ty rel : string) (res : result (list string) string) :
  (ty, rel, res) ∈ fanout_outcomes ctx user_id au <->
  ty ∈ object_types /\ rel ∈ relations /\
  res = fga_list_objects au (shared_list_request ctx user_id ty rel).
Proof.
  unfold fanout_outcomes, fanout_pairs. rewrite !list_elem_of_In, in_map_iff.
  setoid_rewrite in_flat_map. setoid_rewrite in_map_iff. split.
  - intros ([ty' rel'] & Heq & (ty'' & Hty & (rel'' & [= <- <-] & Hrel))). injection Heq as -> -> ->.
    by split_and!.
  - intros (Hty & Hrel & ->). exists (ty, rel). split; [done|].
    exists ty. split; [done|]. by exists rel.
Qed.

Lemma object_types_service : "service" ∈ object_types.
Proof. by left. Qed.
Lemma object_types_service_type : "service_type" ∈ object_types.
Proof. right. by left. Qed.
Lemma object_types_resource : "resource" ∈ object_types.
Proof. right. right. by left. Qed.

Lemma elem_of_services_fanout (ctx : OpenFgaConfig.t) (uid : string) (au : Authority)
    (x : SharedService.t) :
  x ∈ shared_services (collect (fanout_outcomes ctx uid au)) <->
  exists rel objs, rel ∈ relations /\
    fga_list_objects au (shared_list_request ctx uid "service" rel) = Ok objs /\
    SharedService.id x ∈ objs /\
    SharedService.id x = "service:" +:+ SharedService.name x /\
    SharedService.shared_via x = "parent_organization" /\ SharedService.permissions x = [rel].
Proof.
  rewrite (elem_of_collect_proj shared_services (fun _ _ => eq_refl) eq_refl). split.
  - intros (ty & rel & objs & oid & Hq & Ho & Hx). rewrite push_services in Hx.
    destruct (String.eqb_spec ty "service") as [->|_]; [|by apply elem_of_nil in Hx].
    destruct (strip_prefix "service:" oid) as [n|] eqn:Hs; [|by apply elem_of_nil in Hx].
    apply list_elem_of_singleton in Hx as ->.
    apply elem_of_fanout_outcomes in Hq as (_ & Hrel & Hres).
    apply strip_prefix_Some in Hs. exists rel, objs. cbn. by split_and!.
  - intros (rel & objs & Hrel & Hres & Ho & Hid & Hv & Hp).
    exists "service", rel, objs, (SharedService.id x). split_and!; [|done|].
    + apply elem_of_fanout_outcomes. split_and!; [apply object_types_service|done|done].
    + rewrite push_services, (proj2 (strip_prefix_Some _ _ _) Hid). simpl.
      apply list_elem_of_singleton. destruct x; cbn in *. by subst.
Qed.

Lemma elem_of_service_types_fanout (ctx : OpenFgaConfig.t) (uid : string) (au : Authority)
    (x : SharedServiceType.t) :
  x ∈ shared_service_types (collect (fanout_outcomes ctx uid au)) <->
  exists rel objs path, rel ∈ relations /\
    fga_list_objects au (shared_list_request ctx uid "service_type" rel) = Ok objs /\
    SharedServiceType.id x ∈ objs /\
    SharedServiceType.id x = "service_type:" +:+ path /\
    split "/" path = [SharedServiceType.service_name x; SharedServiceType.service_type x] /\
    SharedServiceType.shared_via x = "parent_organization" /\
    SharedServiceType.permissions x = [rel].
Proof.
  rewrite (elem_of_collect_proj shared_service_types (fun _ _ => eq_refl) eq_refl). split.
  - intros (ty & rel & objs & oid & Hq & Ho & Hx). rewrite push_service_types in Hx.
    destruct (String.eqb_spec ty "service_type") as [->|_]; [|by apply elem_of_nil in Hx].
    destruct (strip_prefix "service_type:" oid) as [path|] eqn:Hs; [|by apply elem_of_nil in Hx].
    destruct (split "/" path) as [|p0 [|p1 [|? ?]]] eqn:Hsp; try by apply elem_of_nil in Hx.
    apply list_elem_of_singleton in Hx as ->.
    apply elem_of_fanout_outcomes in Hq as (_ & Hrel & Hres).
    apply strip_prefix_Some in Hs. exists rel, objs, path. cbn. by split_and!.
  - intros (rel & objs & path & Hrel & Hres & Ho & Hid & Hsp & Hv & Hp).
    exists "service_type", rel, objs, (SharedServiceType.id x). split_and!; [|done|].
    + apply elem_of_fanout_outcomes. split_and!; [apply object_types_service_type|done|done].
    + rewrite push_service_types, (proj2 (strip_prefix_Some _ _ _) Hid). simpl.
      rewrite Hsp. apply list_elem_of_singleton. destruct x; cbn in *. by subst.
Qed.

Lemma elem_of_resources_fanout (ctx : OpenFgaConfig.t) (uid : string) (au : Authority)
    (x : SharedResource.t) :
  x ∈ shared_resources (collect (fanout_outcomes ctx uid au)) <->
  exists rel objs path, rel ∈ relations /\
    fga_list_objects au (shared_list_request ctx uid "resource" rel) = Ok objs /\
    SharedResource.id x ∈ objs /\
    SharedResource.id x = "resource:" +:+ path /\
    split "/" path = [SharedResource.service_name x; SharedResource.service_type x;
                      SharedResource.resource_name x] /\
    SharedResource.shared_via x = "parent_organization" /\
    SharedResource.permissions x = [rel].
Proof.
  rewrite (elem_of_collect_proj shared_resources (fun _ _ => eq_refl) eq_refl). split.
  - intros (ty & rel & objs & oid & Hq & Ho & Hx). rewrite push_resources in Hx.
    destruct (String.eqb_spec ty "resource") as [->|_]; [|by apply elem_of_nil in Hx].
    destruct (strip_prefix "resource:" oid) as [path|] eqn:Hs; [|by apply elem_of_nil in Hx].
    destruct (split "/" path) as [|p0 [|p1 [|p2 [|? ?]]]] eqn:Hsp; try by apply elem_of_nil in Hx.
    apply list_elem_of_singleton in Hx as ->.
    apply elem_of_fanout_outcomes in Hq as (_ & Hrel & Hres).
    apply strip_prefix_Some in Hs. exists rel, objs, path. cbn. by split_and!.
  - intros (rel & objs & path & Hrel & Hres & Ho & Hid & Hsp & Hv & Hp).
    exists "resource", rel, objs, (SharedResource.id x). split_and!; [|done|].
    + apply elem_of_fanout_outcomes. split_and!; [apply object_types_resource|done|done].
    + rewrite push_resources, (proj2 (strip_prefix_Some _ _ _) Hid). simpl.
      rewrite Hsp. apply list_elem_of_singleton. destruct x; cbn in *. by subst.
Qed.

(** ** Discovery: the response maps *)

Lemma get_shared_resources_resp (ctx : OpenFgaConfig.t) (u : AuthUser.t) (au : Authority)
    (resp : SharedResourcesResponse) :
  snd (get_shared_resources ctx u au) = Ok (OK, resp) ->
  resp = merge_shared (collect (fanout_outcomes ctx (AuthUser.user_id u) au)).
Proof. rewrite get_shared_resources_eq. cbn [snd]. by intros [= <-]. Qed.

(** X8: in the response of [get_shared_resources], an id is a key of the
    services map exactly when it is ["service:" ++ name] and some service
    query (for a relation among viewer, editor, admin) succeeded and returned
    it; the record under it has that id, the name after the prefix, is shared
    via "parent_organization", and its permissions are exactly the
    relations whose service query returned the id. *)
Theorem discovery_services (ctx : OpenFgaConfig.t) (u : AuthUser.t) (au : Authority)
    (resp : SharedResourcesResponse) :
  snd (get_shared_resources ctx u au) = Ok (OK, resp) ->
  let req rel := shared_list_request ctx (AuthUser.user_id u) "service" rel in
  (forall i, services resp !! i <> None <->
     (exists name, i = "service:" +:+ name) /\
     exists rel objs, rel ∈ relations /\ fga_list_objects au (req rel) = Ok objs /\ i ∈ objs) /\
  (forall i r, services resp !! i = Some r ->
     SharedService.id r = i /\ i = "service:" +:+ SharedService.name r /\
     SharedService.shared_via r = "parent_organization" /\
     forall p, p ∈ SharedService.permissions r <->
       p ∈ relations /\ exists objs, fga_list_objects au (req p) = Ok objs /\ i ∈ objs).
Proof.
  intros Hg%get_shared_resources_resp req. subst resp req.
  destruct (merge_shared_ok (fanout_outcomes ctx (AuthUser.user_id u) au)) as [[Hn Hs] _].
  cbn [rec_id rec_permissions rec_set_permissions SharedService_perms] in Hn, Hs.
  split.
  - intros i. split.
    + intros Hi. destruct (services _ !! i) as [r|] eqn:Hr; [|done].
      destruct (Hs i r Hr) as (_ & _ & _ & (x & Hf & _)).
      apply first_with_id_Some in Hf as [Hx <-].
      apply elem_of_services_fanout in Hx as (rel & objs & Hrel & Hres & Ho & Hid & _).
      split; [by eexists|]. by exists rel, objs.
    + intros ([name ->] & rel & objs & Hrel & Hres & Ho) Hi. apply Hn in Hi. apply Hi.
      exists (SharedService.mk ("service:" +:+ name) name "parent_organization" [rel]).
      split; [|done]. apply elem_of_services_fanout. by exists rel, objs.
  - intros i r Hr. destruct (Hs i r Hr) as (Hid & _ & Hp & (x & Hf & Hset)).
    apply first_with_id_Some in Hf as [Hx Hxi].
    apply elem_of_services_fanout in Hx as (rel & objs & Hrel & Hres & Ho & Hxid & Hxv & _).
    specialize (Hset []). destruct r as [ri rn rv rp], x as [xi xn xv xp].
    cbn [SharedService.id SharedService.name SharedService.shared_via SharedService.permissions]
      in *.
    injection Hset as -> -> ->. subst. split_and!; [done|done|done|].
    intros p. rewrite Hp. split.
    + intros (y & Hy & Hyi & Hpy).
      apply elem_of_services_fanout in Hy as (rel' & objs' & Hrel' & Hres' & Hoy & _ & _ & Hpy').
      rewrite Hpy' in Hpy. apply list_elem_of_singleton in Hpy as ->.
      split; [done|]. exists objs'. by rewrite <- Hyi.
    + intros (Hrelp & objs' & Hres' & Ho').
      exists (SharedService.mk ("service:" +:+ xn) xn "parent_organization" [p]).
      split_and!; [|done|by left]. apply elem_of_services_fanout. by exists p, objs'.
Qed.

Lemma discovery_services_witness :
  services (merge_shared (collect (fanout_outcomes cfg_demo "alice" au_demo))) !! "service:svcA"
    <> None.
Proof.
  apply (proj1 (discovery_services cfg_demo alice au_demo _ eq_refl) "service:svcA").
  split; [exists "svcA"; reflexivity|].
  exists "viewer", ["service:svcA"]. split_and!; [by left|reflexivity|by left].
Defined.

(** X9: in the response of [get_shared_resources], an id is a key of the
    service-types map exactly when it is ["service_type:" ++ path] with a
    [path] of exactly two "/"-separated segments and some service_type query
    succeeded and returned it; the record under it has that id, the two
    segments as service name and service type, is shared via
    "parent_organization", and its permissions are exactly the relations
    whose service_type query returned the id. *)
Theorem discovery_service_types (ctx : OpenFgaConfig.t) (u : AuthUser.t) (au : Authority)
    (resp : SharedResourcesResponse) :
  snd (get_shared_resources ctx u au) = Ok (OK, resp) ->
  let req rel := shared_list_request ctx (AuthUser.user_id u) "service_type" rel in
  (forall i, service_types resp !! i <> None <->
     (exists path, i = "service_type:" +:+ path /\ length (split "/" path) = 2) /\
     exists rel objs, rel ∈ relations /\ fga_list_objects au (req rel) = Ok objs /\ i ∈ objs) /\
  (forall i r, service_types resp !! i = Some r ->
     SharedServiceType.id r = i /\
     (exists path, i = "service_type:" +:+ path /\
        split "/" path = [SharedServiceType.service_name r; SharedServiceType.service_type r]) /\
     SharedServiceType.shared_via r = "parent_organization" /\
     forall p, p ∈ SharedServiceType.permissions r <->
       p ∈ relations /\ exists objs, fga_list_objects au (req p) = Ok objs /\ i ∈ objs).
Proof.
  intros Hg%get_shared_resources_resp req. subst resp req.
  destruct (merge_shared_ok (fanout_outcomes ctx (AuthUser.user_id u) au)) as [_ [[Hn Hs] _]].
  cbn [rec_id rec_permissions rec_set_permissions SharedServiceType_perms] in Hn, Hs.
  split.
  - intros i. split.
    + intros Hi. destruct (service_types _ !! i) as [r|] eqn:Hr; [|done].
      destruct (Hs i r Hr) as (_ & _ & _ & (x & Hf & _)).
      apply first_with_id_Some in Hf as [Hx <-].
      apply elem_of_service_types_fanout in Hx
        as (rel & objs & path & Hrel & Hres & Ho & Hid & Hsp & _).
      split; [exists path; by rewrite Hsp|]. by exists rel, objs.
    + intros ([path [-> Hl]] & rel & objs & Hrel & Hres & Ho) Hi. apply Hn in Hi. apply Hi.
      destruct (split "/" path) as [|p0 [|p1 [|? ?]]] eqn:Hsp; try discriminate Hl.
      exists (SharedServiceType.mk ("service_type:" +:+ path) p0 p1 "parent_organization" [rel]).
      split; [|done]. apply elem_of_service_types_fanout. by exists rel, objs, path.
  - intros i r Hr. destruct (Hs i r Hr) as (Hid & _ & Hp & (x & Hf & Hset)).
    apply first_with_id_Some in Hf as [Hx Hxi].
    apply elem_of_service_types_fanout in Hx
      as (rel & objs & path & Hrel & Hres & Ho & Hxid & Hsp & Hxv & _).
    specialize (Hset []). destruct r as [ri rn rt rv rp], x as [xi xn xt xv xp].
    cbn [SharedServiceType.id SharedServiceType.service_name SharedServiceType.service_type
         SharedServiceType.shared_via SharedServiceType.permissions] in *.
    injection Hset as -> -> -> ->. subst. split_and!; [done|by exists path|done|].
    intros p. rewrite Hp. split.
    + intros (y & Hy & Hyi & Hpy).
      apply elem_of_service_types_fanout in Hy
        as (rel' & objs' & path' & Hrel' & Hres' & Hoy & _ & _ & _ & Hpy').
      rewrite Hpy' in Hpy. apply list_elem_of_singleton in Hpy as ->.
      split; [done|]. exists objs'. by rewrite <- Hyi.
    + intros (Hrelp & objs' & Hres' & Ho').
      exists (SharedServiceType.mk ("service_type:" +:+ path) xn xt "parent_organization" [p]).
      split_and!; [|done|by left]. apply elem_of_service_types_fanout. by exists p, objs', path.
Qed.

Lemma discovery_service_types_witness :
  service_types (merge_shared (collect (fanout_outcomes cfg_demo "alice" au_demo)))
    !! "service_type:svc/typeA/extra" = None.
Proof.
  destruct (service_types (merge_shared (collect (fanout_outcomes cfg_demo "alice" au_demo)))
    !! "service_type:svc/typeA/extra") as [r|] eqn:Hr; [|reflexivity].
  exfalso.
  assert (Hne : service_types (merge_shared (collect (fanout_outcomes cfg_demo "alice" au_demo)))
    !! "service_type:svc/typeA/extra" <> None) by (rewrite Hr; discriminate).
  destruct (proj1 (proj1 (discovery_service_types cfg_demo alice au_demo _ eq_refl)
                      "service_type:svc/typeA/extra") Hne) as [(path & Hp & Hl) _].
  apply strip_prefix_Some in Hp. vm_compute in Hp.
  injection Hp as <-. vm_compute in Hl. discriminate.
Defined.

(** X10: in the response of [get_shared_resources], an id is a key of the
    resources map exactly when it is ["resource:" ++ path] with a [path] of
    exactly three "/"-separated segments and some resource query succeeded
    and returned it; the record under it has that id, the three segments as
    service name, service type and resource name, is shared via
    "parent_organization", and its permissions are exactly the relations
    whose resource query returned the id. *)
Theorem discovery_resources (ctx : OpenFgaConfig.t) (u : AuthUser.t) (au : Authority)
    (resp : SharedResourcesResponse) :
  snd (get_shared_resources ctx u au) = Ok (OK, resp) ->
  let req rel := shared_list_request ctx (AuthUser.user_id u) "resource" rel in
  (forall i, resources resp !! i <> None <->
     (exists path, i = "resource:" +:+ path /\ length (split "/" path) = 3) /\
     exists rel objs, rel ∈ relations /\ fga_list_objects au (req rel) = Ok objs /\ i ∈ objs) /\
  (forall i r, resources resp !! i = Some r ->
     SharedResource.id r = i /\
     (exists path, i = "resource:" +:+ path /\
        split "/" path = [SharedResource.service_name r; SharedResource.service_type r;
                          SharedResource.resource_name r]) /\
     SharedResource.shared_via r = "parent_organization" /\
     forall p, p ∈ SharedResource.permissions r <->
       p ∈ relations /\ exists objs, fga_list_objects au (req p) = Ok objs /\ i ∈ objs).
Proof.
  intros Hg%get_shared_resources_resp req. subst resp req.
  destruct (merge_shared_ok (fanout_outcomes ctx (AuthUser.user_id u) au)) as [_ [_ [Hn Hs]]].
  cbn [rec_id rec_permissions rec_set_permissions SharedResource_perms] in Hn, Hs.
  split.
  - intros i. split.
    + intros Hi. destruct (resources _ !! i) as [r|] eqn:Hr; [|done].
      destruct (Hs i r Hr) as (_ & _ & _ & (x & Hf & _)).
      apply first_with_id_Some in Hf as [Hx <-].
      apply elem_of_resources_fanout in Hx
        as (rel & objs & path & Hrel & Hres & Ho & Hid & Hsp & _).
      split; [exists path; by rewrite Hsp|]. by exists rel, objs.
    + intros ([path [-> Hl]] & rel & objs & Hrel & Hres & Ho) Hi. apply Hn in Hi. apply Hi.
      destruct (split "/" path) as [|p0 [|p1 [|p2 [|? ?]]]] eqn:Hsp; try discriminate Hl.
      exists (SharedResource.mk ("resource:" +:+ path) p0 p1 p2 "parent_organization" [rel]).
      split; [|done]. apply elem_of_resources_fanout. by exists rel, objs, path.
  - intros i r Hr. destruct (Hs i r Hr) as (Hid & _ & Hp & (x & Hf & Hset)).
    apply first_with_id_Some in Hf as [Hx Hxi].
    apply elem_of_resources_fanout in Hx
      as (rel & objs & path & Hrel & Hres & Ho & Hxid & Hsp & Hxv & _).
    specialize (Hset []). destruct r as [ri rn rt rr rv rp], x as [xi xn xt xr xv xp].
    cbn [SharedResource.id SharedResource.service_name SharedResource.service_type
         SharedResource.resource_name SharedResource.shared_via SharedResource.permissions] in *.
    injection Hset as -> -> -> -> ->. subst. split_and!; [done|by exists path|done|].
    intros p. rewrite Hp. split.
    + intros (y & Hy & Hyi & Hpy).
      apply elem_of_resources_fanout in Hy
        as (rel' & objs' & path' & Hrel' & Hres' & Hoy & _ & _ & _ & Hpy').
      rewrite Hpy' in Hpy. apply list_elem_of_singleton in Hpy as ->.
      split; [done|]. exists objs'. by rewrite <- Hyi.
    + intros (Hrelp & objs' & Hres' & Ho').
      exists (SharedResource.mk ("resource:" +:+ path) xn xt xr "parent_organization" [p]).
      split_and!; [|done|by left]. apply elem_of_resources_fanout. by exists p, objs', path.
Qed.

Lemma discovery_resources_witness :
  resources (merge_shared (collect (fanout_outcomes cfg_demo "alice" au_demo)))
    !! "resource:svc/typeA/res1" <> None.
Proof.
  apply (proj1 (discovery_resources cfg_demo alice au_demo _ eq_refl) "resource:svc/typeA/res1").
  split; [exists "svc/typeA/res1"; split; reflexivity|].
  exists "viewer", ["resource:svc/typeA/res1"]. split_and!; [by left|reflexivity|by left].
Defined.

(** ** Discovery: the permission lists are sorted *)

Lemma merge_all_sorted {R} `{HasPermissions R}
    (perms_set : forall r p, rec_permissions (rec_set_permissions r p) = p) (rs : list R) :
  (forall x, x ∈ rs -> StronglySorted string_lt (rec_permissions x)) ->
  forall i r, merge_all rs !! i = Some r -> StronglySorted string_lt (rec_permissions r).
Proof.
  induction rs as [|x rs IH] using rev_ind; intros Hs i r.
  - unfold merge_all. simpl. by rewrite lookup_empty.
  - rewrite merge_all_snoc, merge_entry_lookup. case_decide.
    + destruct (merge_all rs !! rec_id x) as [e|]; intros [= <-].
      * rewrite perms_set. apply canon_StronglySorted.
      * apply Hs, elem_of_snoc. by right.
    + apply IH. intros y Hy. apply Hs, elem_of_snoc. by left.
Qed.

(** X11: every permission list in the response of [get_shared_resources]
    is strictly increasing in byte-wise order: sorted and free of
    duplicates. *)
Theorem discovery_permissions_sorted (ctx : OpenFgaConfig.t) (u : AuthUser.t) (au : Authority)
    (resp : SharedResourcesResponse) :
  snd (get_shared_resources ctx u au) = Ok (OK, resp) ->
  (forall i r, services resp !! i = Some r ->
     StronglySorted string_lt (SharedService.permissions r)) /\
  (forall i r, service_types resp !! i = Some r ->
     StronglySorted string_lt (SharedServiceType.permissions r)) /\
  (forall i r, resources resp !! i = Some r ->
     StronglySorted string_lt (SharedResource.permissions r)).
Proof.
  intros Hg%get_shared_resources_resp. subst resp.
  destruct (collect_gen (fanout_outcomes ctx (AuthUser.user_id u) au)) as (G1 & G2 & G3).
  rewrite Forall_forall in G1; rewrite Forall_forall in G2; rewrite Forall_forall in G3.
  split_and!; intros i r; (refine (merge_all_sorted _ _ _ i r); [intros ? ?; reflexivity|]).
  - intros x Hx. destruct (G1 x Hx) as (_ & _ & [rel Hr]). cbn. rewrite Hr.
    repeat constructor.
  - intros x Hx. destruct (G2 x Hx) as (_ & _ & [rel Hr]). cbn. rewrite Hr.
    repeat constructor.
  - intros x Hx. destruct (G3 x Hx) as (_ & _ & [rel Hr]). cbn. rewrite Hr.
    repeat constructor.
Qed.

Lemma discovery_permissions_sorted_witness :
  match resources (merge_shared (collect (fanout_outcomes cfg_demo "alice" au_demo)))
          !! "resource:svc/typeA/res1" with
  | Some r => StronglySorted string_lt (SharedResource.permissions r)
  | None => False
  end.
Proof.
  destruct (resources (merge_shared (collect (fanout_outcomes cfg_demo "alice" au_demo)))
              !! "resource:svc/typeA/res1") as [r|] eqn:Hr; [|vm_compute in Hr; discriminate].
  exact (proj2 (proj2 (discovery_permissions_sorted cfg_demo alice au_demo _ eq_refl))
           "resource:svc/typeA/res1" r Hr).
Defined.

(** ** Discovery: the requests sent *)

(** X12: [get_shared_resources] sends exactly nine ListObjects requests and
    nothing else, object type by object type (service, service_type,
    resource) and within each relation by relation (viewer, editor, admin),
    each with the configured store id, the model id or "", consistency 8 and
    the caller's id as user. *)
Theorem get_shared_resources_requests (ctx : OpenFgaConfig.t) (u : AuthUser.t) (au : Authority) :
  let req ty rel := CallListObjects (ListObjectsRequest.mk (OpenFgaConfig.store_id ctx)
        (unwrap_or (OpenFgaConfig.authorization_model_id ctx) "") ty 8 rel
        (AuthUser.user_id u)) in
  fst (get_shared_resources ctx u au) =
    [req "service" "viewer"; req "service" "editor"; req "service" "admin";
     req "service_type" "viewer"; req "service_type" "editor"; req "service_type" "admin";
     req "resource" "viewer"; req "resource" "editor"; req "resource" "admin"].
Proof. intros req. rewrite get_shared_resources_eq. reflexivity. Qed.

(** ** The router *)

Lemma run_handler_log (h : M HandlerResult) (au : Authority) :
  fst (run_handler h au) = fst (h au).
Proof. unfold run_handler. by destruct (h au). Qed.

Lemma handler_of_log (m : Method) (ctx : OpenFgaConfig.t) (u : AuthUser.t)
    (p : ResourceParams.t) (au : Authority) :
  fst (run_handler (handler_of m ctx u p) au) =
    fst (check_permission ctx (AuthUser.user_id u) (route_check_target m p).1
           (route_check_target m p).2 au).
Proof.
  rewrite run_handler_log.
  destruct m; simpl;
    [unfold get_resource|unfold create_resource|unfold update_resource|unfold delete_resource];
    apply crud_contract_bind.
Qed.

Lemma check_permission_log (cfg : OpenFgaConfig.t) (user_id relation object_id : string)
    (au : Authority) :
  fst (check_permission cfg user_id relation object_id au) = [] \/
  exists r, fst (check_permission cfg user_id relation object_id au) = [CallCheck r].
Proof.
  unfold check_permission.
  destruct (String.eqb _ ""); [by left|].
  destruct (OpenFgaConfig.authorization_model_id cfg) as [mid|]; [right|by left].
  unfold mbind, M_bind, mret, M_ret, rpc_check.
  destruct (fga_check au _) as [b|e]; simpl; [by eexists|].
  destruct (_ || _); simpl; by eexists.
Qed.

Lemma create_routes_resource (ctx : OpenFgaConfig.t) (au : Authority) (m : Method)
    (path : list string) (headers : HeaderMap) (json_body : result Value Response)
    (p : ResourceParams.t) :
  match_route path = Some (RResource p) ->
  create_routes ctx au m path headers json_body =
    Some (match auth_middleware headers (fun auth_user =>
            match m, json_body with
            | POST, Err rejection => ([], rejection)
            | PUT, Err rejection => ([], rejection)
            | _, _ => run_handler (handler_of m ctx auth_user p) au
            end) with
          | Ok out => out
          | Err resp => ([], resp)
          end).
Proof.
  intros Hr. unfold create_routes. rewrite Hr.
  destruct m, json_body; reflexivity.
Qed.

(** X13: the routed requests never list objects: whatever the method, path,
    headers and body, a request the router answers sends at most one
    request to the authority, and that one is a Check. *)
Theorem create_routes_only_checks (ctx : OpenFgaConfig.t) (au : Authority) (m : Method)
    (path : list string) (headers : HeaderMap) (json_body : result Value Response)
    (calls : list FgaCall) (resp : Response) :
  create_routes ctx au m path headers json_body = Some (calls, resp) ->
  length calls <= 1 /\ Forall is_check_call calls.
Proof.
  destruct (match_route path) as [[| |p]|] eqn:Hr.
  - unfold create_routes. rewrite Hr. destruct m; intros [= <- _]; split; [simpl; lia|constructor].
  - unfold create_routes. rewrite Hr. destruct m; intros [= <- _]; split; [simpl; lia|constructor].
  - rewrite (create_routes_resource _ _ _ _ _ _ p Hr). intros [= Hc].
    destruct (auth_middleware headers _) as [out|r] eqn:Ha.
    2: { injection Hc as <- _. split; [simpl; lia|constructor]. }
    unfold auth_middleware in Ha.
    destruct (header_get headers "x-user-id"); [|discriminate].
    destruct (header_to_str s) as [uid|]; [|discriminate].
    destruct (String.eqb (trim uid) ""); [discriminate|]. injection Ha as <-.
    apply (f_equal fst) in Hc.
    assert (Hl : forall m', fst (run_handler (handler_of m' ctx (AuthUser.mk uid) p) au) = [] \/
               exists r, fst (run_handler (handler_of m' ctx (AuthUser.mk uid) p) au) = [CallCheck r]).
    { intros m'. rewrite handler_of_log. apply check_permission_log. }
    assert (Hf : forall cs, (cs = [] \/ exists r, cs = [CallCheck r]) ->
                 length cs <= 1 /\ Forall is_check_call cs).
    { intros cs [->|[r ->]]; (split; [simpl; lia|]); by repeat constructor. }
    apply Hf. simpl in Hc. rewrite <- Hc.
    destruct m, json_body; first [by left | apply Hl].
  - unfold create_routes. rewrite Hr. destruct m; by intros [=].
Qed.

Lemma create_routes_only_checks_witness :
  length (fst (run_handler (get_resource cfg_demo alice params_demo) au_demo)) <= 1.
Proof.
  refine (proj1 (create_routes_only_checks cfg_demo au_demo GET
    ["api"; "resource"; "svcA"; "typeB"; "org1"; "res1"] [("x-user-id", "alice")]
    (Ok VNull) _ _ _)).
  reflexivity.
Defined.

Lemma match_route_resource (sn st org n : string) :
  match_route ["api"; "resource"; sn; st; org; n] =
    Some (RResource (ResourceParams.mk sn st org n)).
Proof. reflexivity. Qed.

(** X14: the resource route is guarded: whatever the method and body, a
    request without an X-User-Id header is answered 401, and one whose first
    X-User-Id value is not visible ASCII, or only whitespace, is answered
    400; in all these cases no handler runs and nothing is sent to the
    authority. *)
Theorem create_routes_unauthenticated (ctx : OpenFgaConfig.t) (au : Authority) (m : Method)
    (sn st org n : string) (headers : HeaderMap) (json_body : result Value Response) :
  let path := ["api"; "resource"; sn; st; org; n] in
  (header_get headers "x-user-id" = None ->
     create_routes ctx au m path headers json_body =
       Some ([], (UNAUTHORIZED, VObject [("error", VString "Missing authentication");
                                        ("message", VString "X-User-Id header is required")]))) /\
  (forall v, header_get headers "x-user-id" = Some v ->
     forallb is_visible_ascii (String.list_ascii_of_string v) = false ->
     create_routes ctx au m path headers json_body =
       Some ([], (BAD_REQUEST, VObject [("error", VString "Invalid header format");
                    ("message", VString "X-User-Id header must be valid UTF-8")]))) /\
  (forall v, header_get headers "x-user-id" = Some v ->
     forallb is_visible_ascii (String.list_ascii_of_string v) = true ->
     forallb is_whitespace (String.list_ascii_of_string v) = true ->
     create_routes ctx au m path headers json_body =
       Some ([], (BAD_REQUEST, VObject [("error", VString "Invalid user ID");
                    ("message", VString "X-User-Id header cannot be empty")]))).
Proof.
  intros path. rewrite !(create_routes_resource _ _ _ _ _ _ _ (match_route_resource sn st org n)).
  unfold auth_middleware. split_and!.
  - intros ->. reflexivity.
  - intros v -> Hv. unfold header_to_str. by rewrite Hv.
  - intros v -> Hv Hw. unfold header_to_str. rewrite Hv.
    unfold trim. rewrite (trim_start_all_ws _ Hw). reflexivity.
Qed.

Lemma create_routes_unauthenticated_witness :
  create_routes cfg_demo au_demo DELETE ["api"; "resource"; "svcA"; "typeB"; "org1"; "res1"] []
    (Ok VNull) =
    Some ([], (UNAUTHORIZED, VObject [("error", VString "Missing authentication");
                                     ("message", VString "X-User-Id header is required")])).
Proof.
  exact (proj1 (create_routes_unauthenticated cfg_demo au_demo DELETE "svcA" "typeB" "org1" "res1"
                  [] (Ok VNull)) eq_refl).
Defined.






(** ** The four resource handlers when the check is refused or impossible *)

(** X18: with a valid configuration and the authority refusing the check of
    a handler, the handler sends exactly that one Check and answers 403
    "Permission denied" with its own message: "You do not have permission to
    create / update / view / delete this resource". *)
Theorem crud_denied_responses (ctx : OpenFgaConfig.t) (u : AuthUser.t) (p : ResourceParams.t)
    (mid : string) (au : Authority) :
  OpenFgaConfig.store_id ctx <> "" ->
  OpenFgaConfig.authorization_model_id ctx = Some mid ->
  let req rel obj := CheckRequest.mk (OpenFgaConfig.store_id ctx)
        (Some (CheckRequestTupleKey.mk ("user:" +:+ AuthUser.user_id u) rel obj)) mid in
  let key := resource_key_of p in
  let denied msg := VObject [("error", VString "Permission denied"); ("message", VString msg)] in
  (fga_check au (req "admin" ("organisation:" +:+ ResourceParams.org_id p)) = Ok false ->
     create_resource ctx u p au =
       ([CallCheck (req "admin" ("organisation:" +:+ ResourceParams.org_id p))],
        Err (FORBIDDEN, denied "You do not have permission to create this resource"))) /\
  (fga_check au (req "editor" key) = Ok false ->
     update_resource ctx u p au =
       ([CallCheck (req "editor" key)],
        Err (FORBIDDEN, denied "You do not have permission to update this resource"))) /\
  (fga_check au (req "viewer" key) = Ok false ->
     get_resource ctx u p au =
       ([CallCheck (req "viewer" key)],
        Err (FORBIDDEN, denied "You do not have permission to view this resource"))) /\
  (fga_check au (req "owner" key) = Ok false ->
     delete_resource ctx u p au =
       ([CallCheck (req "owner" key)],
        Err (FORBIDDEN, denied "You do not have permission to delete this resource"))).
Proof.
  intros Hs Hm req key denied.
  split_and!; intros Hc;
    [unfold create_resource|unfold update_resource|unfold get_resource|unfold delete_resource];
    unfold mbind at 1, M_bind at 1;
    rewrite (check_permission_configured _ _ _ _ mid au Hs Hm);
    subst req key denied; simpl in Hc |- *; rewrite Hc; reflexivity.
Qed.

Lemma crud_denied_responses_witness :
  let au := {| fga_check := fun _ => Ok false; fga_list_objects := fun _ => Ok [] |} in
  fst (delete_resource cfg_demo alice params_demo au) =
    [CallCheck (CheckRequest.mk "store1"
       (Some (CheckRequestTupleKey.mk "user:alice" "owner" "svcA/typeB/org1/res1")) "model1")].
Proof.
  intros au.
  rewrite (proj2 (proj2 (proj2 (crud_denied_responses cfg_demo alice params_demo "model1" au
                  ltac:(vm_compute; discriminate) eq_refl))) eq_refl).
  reflexivity.
Defined.

(** X19: when OPENFGA_STORE_ID is unset, every resource handler run with the
    configuration [get_fga_config] reads answers 500 "Failed to check
    permission" with the message "OpenFGA store ID not configured", without
    sending any request. *)
Theorem crud_store_unset (env : Env) (u : AuthUser.t) (p : ResourceParams.t) (au : Authority) :
  env "OPENFGA_STORE_ID" = None ->
  forall m, handler_of m (get_fga_config env) u p au =
    ([], Err (INTERNAL_SERVER_ERROR, check_failed_body "OpenFGA store ID not configured")).
Proof.
  intros He m.
  assert (Hc : forall rel obj, check_permission (get_fga_config env) (AuthUser.user_id u) rel obj au
                 = ([], Err "OpenFGA store ID not configured")).
  { intros rel obj. unfold check_permission, get_fga_config. simpl. by rewrite He. }
  destruct m; simpl;
    [unfold get_resource|unfold create_resource|unfold update_resource|unfold delete_resource];
    unfold mbind at 1, M_bind at 1; rewrite Hc; reflexivity.
Qed.

Lemma crud_store_unset_witness :
  get_resource (get_fga_config (fun _ => None)) alice params_demo au_demo =
    ([], Err (INTERNAL_SERVER_ERROR, check_failed_body "OpenFGA store ID not configured")).
Proof. exact (crud_store_unset (fun _ => None) alice params_demo au_demo eq_refl GET). Defined.
